(** * Rubber Duck High-Elevation Simulator: parameter resolution and estimation

    A shallow embedding of the computational core of the four dashboard
    variants ([app.py], [app3.py], [app2.py], [appOld.py]) and the
    properties of it that the specification states.

    Numbers.  The program computes with Python [int] and [float] values.
    They are embedded as exact rationals [Q]; equality of computed numbers is
    [Qeq] (written [==]).  A Python [int] is not distinguished from the
    [float] of the same value, and the rounding of each binary64 operation is
    not part of this embedding: what is proved of it are orderings, bounds,
    case distinctions and the formulas themselves.  Every concrete input used
    with it is chosen so that the exact value agrees with what the
    interpreter prints.  Where a property turns on that rounding (the
    reduction of the budget formula of the oldest variant) the function is
    embedded a second time over binary64 numbers, in module [AppOld64]. *)

From Stdlib Require Import ZArith QArith Qround Qabs Qminmax Lqa Lia.
From Stdlib Require Import PrimFloat.
From stdpp Require Import base strings gmap list.

Local Open Scope Q_scope.

(** ** The Python builtins the application calls *)

Module Py.

(** [a < b] on numbers. *)
Definition lt (a b : Q) : bool :=
  match a ?= b with Lt => true | _ => false end.

(** [max(a, b)]: the first argument is kept unless the second is strictly
    greater. *)
Definition max (a b : Q) : Q := if lt a b then b else a.

(** Nearest integer, ties to the even neighbour. *)
Definition round_half_even (x : Q) : Z :=
  let f := Qfloor x in
  match ((x - inject_Z f) ?= 1 # 2)%Q with
  | Lt => f
  | Gt => (f + 1)%Z
  | Eq => if Z.even f then f else (f + 1)%Z
  end.

(** [round(x, ndigits)] for [ndigits >= 0], of an exact value: the multiple
    of [10 ^ -ndigits] nearest to it, ties to the even one.  The interpreter
    rounds the binary64 value it has computed, which at a decimal tie of the
    exact value lies on one side of the tie, and returns the binary64 number
    nearest to the result. *)
Definition round (x : Q) (ndigits : nat) : Q :=
  let scale := (10 ^ Z.of_nat ndigits)%Z in
  inject_Z (round_half_even (x * inject_Z scale)) / inject_Z scale.

(** A [dict] that is iterated: an association list in insertion order with
    unique keys. *)
Definition dict (V : Type) : Type := list (string * V).

(** [d[k] = v]: an existing key keeps its position, a new key goes last. *)
Fixpoint setitem {V : Type} (k : string) (v : V) (d : dict V) : dict V :=
  match d with
  | [] => [(k, v)]
  | (k', v') :: d' =>
      if String.eqb k k' then (k, v) :: d' else (k', v') :: setitem k v d'
  end.

Definition keys {V : Type} (d : dict V) : list string := fst <$> d.

End Py.

(** ** Simulation logic ([app.py], lines 135-208) *)

Definition compute_weather_factor (wind_speed : Q) : Q :=
  if Py.lt wind_speed 10 then 1.0
  else if Py.lt wind_speed 20 then 0.9
  else 0.8.

Definition simulate_elevation
    (base_elev altitude_km efficiency weather_factor : Q) : Q :=
  let additional := altitude_km * 1000 * efficiency * weather_factor in
  base_elev + additional.

Definition estimate_cost
    (base_cost cost_per_gram cost_per_km mass_g altitude_km : Q) : Q :=
  base_cost + (cost_per_gram * mass_g) + (cost_per_km * altitude_km).

Definition estimate_custom_cost
    (base_cost cost_per_gram cost_per_km mass_g altitude_km
     setup_time_hours labor_rate material_factor overhead_factor : Q) : Q :=
  let partial := base_cost
                 + (cost_per_gram * mass_g)
                 + (cost_per_km * altitude_km)
                 + (setup_time_hours * labor_rate)
                 + material_factor in
  overhead_factor * partial.

(** The local [wind_penalty] of [simulate_custom_elevation] (line 205). *)
Definition wind_penalty (wind_speed wind_sensitivity : Q) : Q :=
  wind_speed * wind_sensitivity.

Definition simulate_custom_elevation
    (base_elev altitude_km efficiency weather_factor
     wind_sensitivity wind_speed : Q) : Q :=
  let base_additional := altitude_km * 1000 * efficiency * weather_factor in
  let final_altitude :=
    base_elev + base_additional - wind_penalty wind_speed wind_sensitivity in
  Py.max final_altitude 0.

(** ** Data model *)

(** The parameter set of a built-in lift method: the inner dictionaries of
    [TRANSPORT_MODES] and of [transport_params]. *)
Record TransportParams : Type := mkParams {
  base_cost : Q;
  cost_per_gram : Q;
  cost_per_km : Q;
  efficiency : Q
}.

(** [custom_lift_method] (lines 380-391), read in [main] as [cm]. *)
Record CustomLiftMethod : Type := mkCustom {
  cm_name : string;
  cm_base_cost : Q;
  cm_cost_per_gram : Q;
  cm_cost_per_km : Q;
  cm_efficiency : Q;
  cm_setup_time_hours : Q;
  cm_labor_rate : Q;
  cm_material_factor : Q;
  cm_overhead_factor : Q;
  cm_wind_sensitivity : Q
}.

(** One dictionary appended to [results]: the keys ["Mode"],
    ["Final Elevation (m)"] and ["Estimated Cost (USD)"]. *)
Record ResultRow : Type := mkRow {
  Mode : string;
  Final_Elevation_m : Q;
  Estimated_Cost_USD : Q
}.

(** [st.session_state]: the last successful readings.  The weather reading is
    the provider's [current_weather] dictionary, restricted to its numeric
    entries. *)
Record SessionState : Type := mkSession {
  base_elev : option Q;
  weather_data : option (gmap string Q)
}.

(** The widget values [main] reads in steps 2 to 6. *)
Record Inputs : Type := mkInputs {
  override_base_elev : bool;
  manual_base_elev : Q;
  override_weather : bool;
  manual_weather_factor : Q;
  duck_mass : Q;
  transport_params : Py.dict TransportParams;
  custom_lift_method : CustomLiftMethod;
  use_custom_method : bool;
  altitude_km : Q
}.

(** ** Default transport modes ([app.py], lines 213-244) *)

Definition TRANSPORT_MODES : Py.dict TransportParams :=
  [ ("Helium Balloon"%string, mkParams 10 0.02 0.2 1.1);
    ("Weather Balloon"%string, mkParams 15 0.015 0.25 1.2);
    ("Drone"%string, mkParams 20 0.05 0.15 1.3);
    ("Hot Air Balloon"%string, mkParams 50 0.01 0.1 1.5);
    ("Catapult"%string, mkParams 5 0.005 0.3 1.05) ].

(** Step 4 of [main] (lines 308-345).  [widgets mode params] is the quadruple
    returned by the four widgets labelled with [mode], whose defaults are
    [params]. *)
Definition configure_transport_params
    (widgets : string -> TransportParams -> TransportParams)
    : Py.dict TransportParams :=
  fold_left
    (fun transport_params '(mode, params) =>
       Py.setitem mode (widgets mode params) transport_params)
    TRANSPORT_MODES [].

(** ** Step 7 of [main]: parameter resolution (lines 406-425) *)

(** The two [st.error(...); return] exits: "No base elevation data." and
    "No weather data."  The specification calls them MissingElevationError
    and MissingWeatherError. *)
Inductive RunError : Type :=
  | MissingElevationError
  | MissingWeatherError.

(** The three locals that survive resolution. *)
Record Resolved : Type := mkResolved {
  final_base_elev : Q;
  wind_speed : Q;
  computed_weather_factor : Q
}.

Definition is_None {A : Type} (o : option A) : bool :=
  match o with None => true | Some _ => false end.

Definition resolve (st : SessionState) (inp : Inputs) : RunError + Resolved :=
  if is_None (base_elev st) && negb (override_base_elev inp)
  then inl MissingElevationError
  else
    let final_base_elev :=
      match base_elev st with
      | Some elev =>
          if negb (override_base_elev inp) then elev else manual_base_elev inp
      | None => manual_base_elev inp
      end in
    if is_None (weather_data st) && negb (override_weather inp)
    then inl MissingWeatherError
    else
      let '(wind_speed, computed_weather_factor) :=
        match weather_data st with
        | Some wd =>
            if negb (override_weather inp)
            then
              let wind_speed := default 0 (wd !! "wind_speed"%string) in
              (wind_speed, compute_weather_factor wind_speed)
            else (0, manual_weather_factor inp)
        | None => (0, manual_weather_factor inp)
        end in
      inr (mkResolved final_base_elev wind_speed computed_weather_factor).

(** ** Step 7 of [main]: the estimation loop (lines 427-484) *)

(** The body of the [for mode, params in transport_params.items()] loop. *)
Definition builtin_row (r : Resolved) (inp : Inputs)
    (item : string * TransportParams) : ResultRow :=
  let '(mode, params) := item in
  let eff := efficiency params in
  let bc := base_cost params in
  let cpg := cost_per_gram params in
  let cpk := cost_per_km params in
  let total_elev :=
    simulate_elevation (final_base_elev r) (altitude_km inp) eff
      (computed_weather_factor r) in
  let total_cost := estimate_cost bc cpg cpk (duck_mass inp) (altitude_km inp) in
  mkRow mode (Py.round total_elev 2) (Py.round total_cost 2).

(** The body of [if use_custom_method:]. *)
Definition custom_row (r : Resolved) (inp : Inputs) : ResultRow :=
  let cm := custom_lift_method inp in
  let total_elev_custom :=
    simulate_custom_elevation (final_base_elev r) (altitude_km inp)
      (cm_efficiency cm) (computed_weather_factor r)
      (cm_wind_sensitivity cm) (wind_speed r) in
  let total_cost_custom :=
    estimate_custom_cost (cm_base_cost cm) (cm_cost_per_gram cm)
      (cm_cost_per_km cm) (duck_mass inp) (altitude_km inp)
      (cm_setup_time_hours cm) (cm_labor_rate cm) (cm_material_factor cm)
      (cm_overhead_factor cm) in
  mkRow (cm_name cm) (Py.round total_elev_custom 2)
    (Py.round total_cost_custom 2).

Definition estimate (r : Resolved) (inp : Inputs) : list ResultRow :=
  let results :=
    fold_left (fun results item => results ++ [builtin_row r inp item])
      (transport_params inp) [] in
  if use_custom_method inp then results ++ [custom_row r inp] else results.

(** The handler of the "Run Simulation" button: either one of the two error
    exits, or the list handed to [pd.DataFrame]. *)
Definition run_simulation (st : SessionState) (inp : Inputs)
    : RunError + list ResultRow :=
  match resolve st inp with
  | inl e => inl e
  | inr r => inr (estimate r inp)
  end.

(** ** The second variant ([app2.py], lines 232-242) *)

Module App2.

(** The single exit "Missing external data or overrides." *)
Inductive RunError : Type := MissingData.

(** Returns [(final_base_elev, computed_weather_factor)]. *)
Definition resolve
    (base_elev : option Q) (weather_data : option (gmap string Q))
    (override_base_elev : bool) (manual_base_elev : Q)
    (override_weather : bool) (manual_weather_factor : Q)
    : RunError + Q * Q :=
  if (is_None base_elev || is_None weather_data)
     && negb (override_base_elev && override_weather)
  then inl MissingData
  else
    let final_base_elev :=
      match base_elev with
      | Some elev => if negb override_base_elev then elev else manual_base_elev
      | None => manual_base_elev
      end in
    let computed_weather_factor :=
      match weather_data with
      | Some wd =>
          if negb override_weather
          then
            let wind_speed := default 0 (wd !! "wind_speed"%string) in
            compute_weather_factor wind_speed
          else manual_weather_factor
      | None => manual_weather_factor
      end in
    inr (final_base_elev, computed_weather_factor).

End App2.

(** ** The oldest variant ([appOld.py], lines 69-76) *)

(** The formula over exact numbers; [AppOld64] below has it in the arithmetic
    of the interpreter. *)
Module AppOld.

Definition simulate_elevation
    (base_elev budget efficiency weather_factor : Q) : Q :=
  let additional := (budget / 50) * efficiency * weather_factor * 50 in
  base_elev + additional.

End AppOld.

(** ** Scenarios *)

(** The state of a fresh session: nothing fetched yet (lines 247-250). *)
Definition fresh_session : SessionState := mkSession None None.

(** A session holding an elevation reading of 10 m and a weather reading with
    a wind speed of 25 km/h. *)
Definition windy_session : SessionState :=
  mkSession (Some 10)
    (Some {[ "temperature"%string := 21; "wind_speed"%string := 25 ]}).

(** A session whose weather reading carries no ["wind_speed"] entry. *)
Definition windless_session : SessionState :=
  mkSession (Some 10) (Some {[ "temperature"%string := 21 ]}).

(** The default values of the step 5 widgets (lines 353-377). *)
Definition default_custom : CustomLiftMethod :=
  mkCustom "MyCustomMethod" 30 0.03 0.25 1.2 2 20 10 1.2 0.1.

(** The default values of every widget of [main]. *)
Definition default_inputs : Inputs :=
  mkInputs false 0 false 1.0 10 (configure_transport_params (fun _ params => params))
    default_custom false 1.

Definition Drone : TransportParams := mkParams 20 0.05 0.15 1.3.

(** Both overrides set (10 m, factor 1.0), a 10 g payload, 1 km, and the
    Drone as the only built-in method. *)
Definition drone_scenario : Inputs :=
  mkInputs true 10 true 1.0 10 [("Drone"%string, Drone)] default_custom false 1.

(** The defaults, with the weather factor overridden and the custom method
    included. *)
Definition override_weather_scenario : Inputs :=
  mkInputs false 0 true 1.0 10 (configure_transport_params (fun _ params => params))
    default_custom true 1.

(** The defaults, with the custom method included. *)
Definition custom_scenario : Inputs :=
  mkInputs false 0 false 1.0 10 (configure_transport_params (fun _ params => params))
    default_custom true 1.

(** ** Fetching ([app.py], lines 95-130) *)

(** What the [try] block of a fetch function ends with: an exception raised
    by [requests.get], [raise_for_status] or [response.json], or the decoded
    body. *)
Inductive Exchange (A : Type) : Type :=
  | Raised
  | Body (data : A).

Arguments Raised {A}.
Arguments Body {A} data.

(** [bool(d)] of a dictionary. *)
Definition dict_truthy {V : Type} (d : gmap string V) : bool :=
  negb (Nat.eqb (size d) 0).

(** [fetch_base_elevation], as a function of the exchange.  The body is the
    provider's object, of which the list under ["results"] is read; every
    result is an object restricted to its numeric entries. *)
Definition fetch_base_elevation
    (exchange : Exchange (gmap string (list (gmap string Q)))) : option Q :=
  match exchange with
  | Raised => None
  | Body data =>
      match data !! "results"%string with
      | Some (first :: _) => first !! "elevation"%string
      | Some [] => None
      | None => None
      end
  end.

(** [fetch_weather], as a function of the exchange.  The body is the
    provider's object, of which the object under ["current_weather"] is
    read. *)
Definition fetch_weather
    (exchange : Exchange (gmap string (gmap string Q)))
    : option (gmap string Q) :=
  match exchange with
  | Raised => None
  | Body data =>
      match data !! "current_weather"%string with
      | Some current_weather =>
          if dict_truthy current_weather then Some current_weather else None
      | None => None
      end
  end.

(** ** Step 1 of [main]: the "Fetch Elevation & Weather" button
    (lines 271-285) *)

Definition store_readings (st : SessionState)
    (elev : option Q) (weather : option (gmap string Q)) : SessionState :=
  let st :=
    match elev with
    | Some elev => mkSession (Some elev) (weather_data st)
    | None => st
    end in
  match weather with
  | Some weather => mkSession (base_elev st) (Some weather)
  | None => st
  end.

Definition fetch_clicked (st : SessionState)
    (elevation_exchange : Exchange (gmap string (list (gmap string Q))))
    (weather_exchange : Exchange (gmap string (gmap string Q)))
    : SessionState :=
  let elev := fetch_base_elevation elevation_exchange in
  let weather := fetch_weather weather_exchange in
  store_readings st elev weather.

(** The session after a sequence of clicks on the fetch button, starting from
    a fresh one. *)
Definition session_after
    (clicks : list (Exchange (gmap string (list (gmap string Q)))
                    * Exchange (gmap string (gmap string Q))))
    : SessionState :=
  fold_left (fun st click => fetch_clicked st (fst click) (snd click))
    clicks fresh_session.

(** ** The script of the second variant ([app2.py], lines 181-274) *)

Module App2Main.

(** Lines 16-41. *)
Definition TRANSPORT_MODES : Py.dict TransportParams :=
  [ ("Helium Balloon"%string, mkParams 10 0.02 0.2 1.1);
    ("Drone"%string, mkParams 20 0.05 0.15 1.3);
    ("Hot Air Balloon"%string, mkParams 50 0.01 0.1 1.5);
    ("Catapult"%string, mkParams 5 0.005 0.3 1.05) ].

(** Lines 181-197: the readings exist only in a script run in which the fetch
    button is pressed. *)
Definition readings (fetch_pressed : bool)
    (elev : option Q) (weather : option (gmap string Q))
    : option Q * option (gmap string Q) :=
  if fetch_pressed then (elev, weather) else (None, None).

(** The body of the loop of lines 246-274. *)
Definition row (final_base_elev computed_weather_factor duck_mass altitude_km : Q)
    (item : string * TransportParams) : ResultRow :=
  let '(mode, params) := item in
  let efficiency := efficiency params in
  let base_cost := base_cost params in
  let cost_per_gram := cost_per_gram params in
  let cost_per_km := cost_per_km params in
  let total_elev :=
    simulate_elevation final_base_elev altitude_km efficiency
      computed_weather_factor in
  let total_cost :=
    estimate_cost base_cost cost_per_gram cost_per_km duck_mass altitude_km in
  mkRow mode (Py.round total_elev 2) (Py.round total_cost 2).

(** Lines 211-223: one entry per mode of this variant's [TRANSPORT_MODES],
    holding the values of that mode's widgets. *)
Definition configure_transport_params
    (widgets : string -> TransportParams -> TransportParams)
    : Py.dict TransportParams :=
  fold_left
    (fun transport_params '(mode, params) =>
       Py.setitem mode (widgets mode params) transport_params)
    TRANSPORT_MODES [].

(** The "Run Simulation" button. *)
Definition run_simulation (fetch_pressed : bool)
    (elev : option Q) (weather : option (gmap string Q))
    (override_base_elev : bool) (manual_base_elev : Q)
    (override_weather : bool) (manual_weather_factor : Q)
    (duck_mass : Q) (transport_params : Py.dict TransportParams)
    (altitude_km : Q) : App2.RunError + list ResultRow :=
  let '(base_elev, weather_data) := readings fetch_pressed elev weather in
  match App2.resolve base_elev weather_data override_base_elev
          manual_base_elev override_weather manual_weather_factor with
  | inl e => inl e
  | inr (final_base_elev, computed_weather_factor) =>
      inr (fold_left
             (fun results item =>
                results ++ [row final_base_elev computed_weather_factor
                              duck_mass altitude_km item])
             transport_params [])
  end.

End App2Main.

(** ** The script of the oldest variant ([appOld.py], lines 13-18 and 87-150) *)

Module AppOldMain.

Definition TRANSPORT_MODES : list (string * Q) :=
  [ ("Helium Balloon"%string, 1.1);
    ("Drone"%string, 1.3);
    ("Hot Air Balloon"%string, 1.5);
    ("Catapult"%string, 1.05) ].

(** Line 89. *)
Definition budget (budget_option : string) : Q :=
  if String.eqb budget_option "$50" then 50 else 500.

(** The single exit "Missing external data." *)
Inductive RunError : Type := MissingExternalData.

Record Row : Type := mkRow {
  Mode : string;
  Efficiency : Q;
  Simulated_Total_Elevation_m : Q
}.

(** The body of the loop of lines 142-150. *)
Definition row (base_elev budget weather_factor : Q) (mode : string * Q)
    : Row :=
  let mode_name := fst mode in
  let efficiency := snd mode in
  let total_elevation :=
    AppOld.simulate_elevation base_elev budget efficiency weather_factor in
  mkRow mode_name efficiency (Py.round total_elevation 1).

(** The "Run Simulation" button (lines 124-150); [base_elev] and [weather]
    are what the two fetch functions returned. *)
Definition run_simulation (budget_option : string)
    (base_elev : option Q) (weather : option (gmap string Q))
    (use_manual_weather : bool) (manual_weather_factor : Q)
    : RunError + list Row :=
  match base_elev, weather with
  | Some base_elev, Some weather =>
      let wind_speed := default 0 (weather !! "wind_speed"%string) in
      let weather_factor := compute_weather_factor wind_speed in
      let weather_factor :=
        if use_manual_weather then manual_weather_factor else weather_factor in
      inr (fold_left
             (fun results mode =>
                results ++ [row base_elev (budget budget_option)
                              weather_factor mode])
             TRANSPORT_MODES [])
  | _, _ => inl MissingExternalData
  end.

End AppOldMain.

(** ** The oldest variant in binary64 ([appOld.py], lines 13-18, 58-76, 89) *)

(** A decimal literal denotes the binary64 number nearest to it, as it does
    for the interpreter. *)
Set Warnings "-inexact-float".

Module AppOld64.

Definition TRANSPORT_MODES : list (string * float) :=
  [ ("Helium Balloon"%string, 1.1%float);
    ("Drone"%string, 1.3%float);
    ("Hot Air Balloon"%string, 1.5%float);
    ("Catapult"%string, 1.05%float) ].

Definition budget (budget_option : string) : float :=
  if String.eqb budget_option "$50" then 50%float else 500%float.

Definition compute_weather_factor (wind_speed : float) : float :=
  if PrimFloat.ltb wind_speed 10 then 1.0%float
  else if PrimFloat.ltb wind_speed 20 then 0.9%float
  else 0.8%float.

(** The local [additional] of [simulate_elevation] (line 75): four rounded
    operations, left to right. *)
Definition additional (budget efficiency weather_factor : float) : float :=
  (budget / 50 * efficiency * weather_factor * 50)%float.

Definition simulate_elevation
    (base_elev budget efficiency weather_factor : float) : float :=
  (base_elev + additional budget efficiency weather_factor)%float.

End AppOld64.

(** The rows of a result table that are not the Weather Balloon's, the one
    mode only [app.py] has. *)
Definition without_weather_balloon (rows : list ResultRow) : list ResultRow :=
  List.filter
    (fun row => negb (String.eqb (Mode row) "Weather Balloon")) rows.

(** ** The third variant ([app3.py], lines 303-351) *)

Module App3.

(** Lines 163-188. *)
Definition TRANSPORT_MODES : Py.dict TransportParams :=
  [ ("Helium Balloon"%string, mkParams 10 0.02 0.2 1.1);
    ("Drone"%string, mkParams 20 0.05 0.15 1.3);
    ("Hot Air Balloon"%string, mkParams 50 0.01 0.1 1.5);
    ("Catapult"%string, mkParams 5 0.005 0.3 1.05) ].

(** Step 4 (lines 252-290). *)
Definition configure_transport_params
    (widgets : string -> TransportParams -> TransportParams)
    : Py.dict TransportParams :=
  fold_left
    (fun transport_params '(mode, params) =>
       Py.setitem mode (widgets mode params) transport_params)
    TRANSPORT_MODES [].

(** Returns [(final_base_elev, computed_weather_factor)]. *)
Definition resolve (st : SessionState)
    (override_base_elev : bool) (manual_base_elev : Q)
    (override_weather : bool) (manual_weather_factor : Q)
    : RunError + Q * Q :=
  if is_None (base_elev st) && negb override_base_elev
  then inl MissingElevationError
  else
    let final_base_elev :=
      match base_elev st with
      | Some elev => if negb override_base_elev then elev else manual_base_elev
      | None => manual_base_elev
      end in
    if is_None (weather_data st) && negb override_weather
    then inl MissingWeatherError
    else
      let computed_weather_factor :=
        match weather_data st with
        | Some wd =>
            if negb override_weather
            then
              let wind_speed := default 0 (wd !! "wind_speed"%string) in
              compute_weather_factor wind_speed
            else manual_weather_factor
        | None => manual_weather_factor
        end in
      inr (final_base_elev, computed_weather_factor).

Definition run_simulation (st : SessionState)
    (override_base_elev : bool) (manual_base_elev : Q)
    (override_weather : bool) (manual_weather_factor : Q)
    (duck_mass : Q) (transport_params : Py.dict TransportParams)
    (altitude_km : Q) : RunError + list ResultRow :=
  match resolve st override_base_elev manual_base_elev override_weather
          manual_weather_factor with
  | inl e => inl e
  | inr (final_base_elev, computed_weather_factor) =>
      inr (fold_left
             (fun results item =>
                let '(mode, params) := item in
                let eff := efficiency params in
                let bc := base_cost params in
                let cpg := cost_per_gram params in
                let cpk := cost_per_km params in
                let total_elev :=
                  simulate_elevation final_base_elev altitude_km eff
                    computed_weather_factor in
                let total_cost :=
                  estimate_cost bc cpg cpk duck_mass altitude_km in
                results ++ [mkRow mode (Py.round total_elev 2)
                              (Py.round total_cost 2)])
             transport_params [])
  end.

End App3.

(** ** The bounds of the widgets of [app.py] (lines 294-400) *)

(** [min_value <= x <= max_value]. *)
Definition between (min_value max_value x : Q) : bool :=
  Qle_bool min_value x && Qle_bool x max_value.

(** The four widgets of one built-in method (lines 313-339). *)
Definition params_in_range (params : TransportParams) : bool :=
  Qle_bool 0 (base_cost params)
  && Qle_bool 0 (cost_per_gram params)
  && Qle_bool 0 (cost_per_km params)
  && between 0.5 2.0 (efficiency params).

(** The widgets of step 5 (lines 354-377). *)
Definition custom_in_range (cm : CustomLiftMethod) : bool :=
  Qle_bool 0 (cm_base_cost cm)
  && Qle_bool 0 (cm_cost_per_gram cm)
  && Qle_bool 0 (cm_cost_per_km cm)
  && between 0.5 2.0 (cm_efficiency cm)
  && Qle_bool 0 (cm_setup_time_hours cm)
  && Qle_bool 0 (cm_labor_rate cm)
  && Qle_bool 0 (cm_material_factor cm)
  && between 1.0 3.0 (cm_overhead_factor cm)
  && between 0 1.0 (cm_wind_sensitivity cm).

(** What the widgets let through: the manual elevation is unbounded. *)
Definition inputs_in_range (inp : Inputs) : bool :=
  between 0.5 1.5 (manual_weather_factor inp)
  && Qle_bool 1.0 (duck_mass inp)
  && forallb (fun item => params_in_range (snd item)) (transport_params inp)
  && custom_in_range (custom_lift_method inp)
  && between 0 30.0 (altitude_km inp).

(** * Properties *)

(** ** Builtins *)

Lemma lt_true (a b : Q) : Py.lt a b = true <-> a < b.
Proof.
  unfold Py.lt. rewrite Qlt_alt.
  destruct (a ?= b); split; congruence.
Qed.

Lemma lt_false (a b : Q) : Py.lt a b = false <-> b <= a.
Proof.
  unfold Py.lt.
  destruct (Qcompare_spec a b); split; intros; try discriminate; try reflexivity; lra.
Qed.

Lemma max_Qmax (a b : Q) : Py.max a b == Qmax a b.
Proof.
  unfold Py.max. destruct (Py.lt a b) eqn:E.
  - apply lt_true in E. symmetry. apply Q.max_r. lra.
  - apply lt_false in E. symmetry. apply Q.max_l. exact E.
Qed.

Lemma max_zero_nonneg (a : Q) : 0 <= Py.max a 0.
Proof.
  unfold Py.max. destruct (Py.lt a 0) eqn:E.
  - lra.
  - apply lt_false in E. exact E.
Qed.

Lemma round_half_even_comp (x y : Q) :
  x == y -> Py.round_half_even x = Py.round_half_even y.
Proof.
  intros E. unfold Py.round_half_even.
  rewrite (Qfloor_comp _ _ E).
  assert (C : (x - inject_Z (Qfloor y) ?= 1 # 2) = (y - inject_Z (Qfloor y) ?= 1 # 2)).
  { apply Qcompare_comp; [rewrite E|]; reflexivity. }
  rewrite C. reflexivity.
Qed.

Lemma round_comp (x y : Q) (n : nat) : x == y -> Py.round x n = Py.round y n.
Proof.
  intros E. unfold Py.round.
  set (s := inject_Z (10 ^ Z.of_nat n)).
  rewrite (round_half_even_comp (x * s) (y * s)); [reflexivity|].
  rewrite E. reflexivity.
Qed.

Lemma round_half_even_lower (x : Q) : (Qfloor x <= Py.round_half_even x)%Z.
Proof.
  unfold Py.round_half_even.
  destruct (_ ?= _); [destruct (Z.even _)|..]; lia.
Qed.

Lemma round_nonneg (x : Q) (n : nat) : 0 <= x -> 0 <= Py.round x n.
Proof.
  intros Hx. unfold Py.round.
  assert (Hs : (0 < 10 ^ Z.of_nat n)%Z) by (apply Z.pow_pos_nonneg; lia).
  set (s := (10 ^ Z.of_nat n)%Z) in *.
  assert (Hq : 0 < inject_Z s) by (rewrite <- (Zlt_Qlt 0); exact Hs).
  assert (Hf : (0 <= Qfloor (x * inject_Z s))%Z).
  { rewrite <- (Qfloor_Z 0). apply Qfloor_resp_le.
    change (inject_Z 0) with 0. apply Qmult_le_0_compat; lra. }
  pose proof (round_half_even_lower (x * inject_Z s)) as Hl.
  apply Qle_shift_div_l; [exact Hq|].
  rewrite Qmult_0_l. rewrite <- (Zle_Qle 0). lia.
Qed.

(** ** Weather factor derivation *)

Lemma weather_factor_cases (w : Q) :
  (w < 10 /\ compute_weather_factor w = 1.0)
  \/ (10 <= w < 20 /\ compute_weather_factor w = 0.9)
  \/ (20 <= w /\ compute_weather_factor w = 0.8).
Proof.
  unfold compute_weather_factor.
  destruct (Py.lt w 10) eqn:E10.
  - left. apply lt_true in E10. auto.
  - apply lt_false in E10.
    destruct (Py.lt w 20) eqn:E20.
    + right; left. apply lt_true in E20. auto.
    + right; right. apply lt_false in E20. auto.
Qed.

Ltac factor_cases w :=
  let H := fresh "H" in
  let E := fresh "E" in
  destruct (weather_factor_cases w) as [[H E] | [[H E] | [H E]]];
  rewrite E.

(** C4.  For a wind speed [w >= 0] the factor is 1.0 below 10, 0.9 from 10
    up to (not including) 20 and 0.8 from 20 on; so it takes one of these
    three values, never increases with [w], is constant around every point
    other than 10 and 20, and jumps at 10 and at 20. *)
Theorem weather_factor_piecewise (w : Q) :
  0 <= w ->
  (w < 10 -> compute_weather_factor w = 1.0)
  /\ (10 <= w < 20 -> compute_weather_factor w = 0.9)
  /\ (20 <= w -> compute_weather_factor w = 0.8)
  /\ (compute_weather_factor w = 1.0
      \/ compute_weather_factor w = 0.9
      \/ compute_weather_factor w = 0.8)
  /\ (forall w', w <= w' ->
        compute_weather_factor w' <= compute_weather_factor w)
  /\ (~ w == 10 -> ~ w == 20 ->
      exists d, 0 < d /\
        forall w', 0 <= w' -> Qabs (w' - w) < d ->
          compute_weather_factor w' = compute_weather_factor w)
  /\ (forall d, 0 < d ->
        exists w', 0 <= w' < 10 /\ 10 - w' < d
          /\ ~ compute_weather_factor w' == compute_weather_factor 10)
  /\ (forall d, 0 < d ->
        exists w', 10 <= w' < 20 /\ 20 - w' < d
          /\ ~ compute_weather_factor w' == compute_weather_factor 20).
Proof.
  intros Hw. repeat split.
  - intros H. factor_cases w; [reflexivity | lra | lra].
  - intros H. factor_cases w; [lra | reflexivity | lra].
  - intros H. factor_cases w; [lra | lra | reflexivity].
  - factor_cases w; auto.
  - intros w' Hle. factor_cases w; factor_cases w'; lra.
  - intros N10 N20.
    assert (Hd : exists d, 0 < d /\ forall w', Qabs (w' - w) < d ->
                   (w < 10 -> w' < 10) /\ (10 <= w < 20 -> 10 <= w' < 20)
                   /\ (20 <= w -> 20 <= w')).
    { destruct (Qlt_le_dec w 10) as [L10 | G10].
      - exists (10 - w). split; [lra|]. intros w' Hab.
        apply Qabs_Qlt_condition in Hab. lra.
      - assert (10 < w) by (apply Qle_lteq in G10; destruct G10 as [?|E];
                            [assumption | exfalso; apply N10; symmetry; exact E]).
        destruct (Qlt_le_dec w 20) as [L20 | G20].
        + exists (Qmin (w - 10) (20 - w)). split.
          * apply Q.min_glb_lt; lra.
          * intros w' Hab. apply Qabs_Qlt_condition in Hab.
            pose proof (Q.le_min_l (w - 10) (20 - w)).
            pose proof (Q.le_min_r (w - 10) (20 - w)). lra.
        + assert (20 < w) by (apply Qle_lteq in G20; destruct G20 as [?|E];
                              [assumption | exfalso; apply N20; symmetry; exact E]).
          exists (w - 20). split; [lra|]. intros w' Hab.
          apply Qabs_Qlt_condition in Hab. lra. }
    destruct Hd as (d & Hd & Hn). exists d. split; [exact Hd|].
    intros w' _ Hab. destruct (Hn w' Hab) as (H1 & H2 & H3).
    factor_cases w; factor_cases w'; try reflexivity; lra.
  - intros d Hd. destruct (Qlt_le_dec d 10) as [L | G].
    + exists (10 - d * (1 # 2)). repeat split; try lra.
      factor_cases (10 - d * (1 # 2)); [|lra|lra].
      factor_cases 10; [lra| |lra]. intros C. vm_compute in C. discriminate C.
    + exists 5. repeat split; try lra. intros C. vm_compute in C. discriminate C.
  - intros d Hd. destruct (Qlt_le_dec d 10) as [L | G].
    + exists (20 - d * (1 # 2)). repeat split; try lra.
      factor_cases (20 - d * (1 # 2)); [lra| |lra].
      factor_cases 20; [lra|lra|]. intros C. vm_compute in C. discriminate C.
    + exists 15. repeat split; try lra. intros C. vm_compute in C. discriminate C.
Qed.

(** At wind speed 15 the factor is 0.9. *)
Lemma weather_factor_piecewise_witness :
  0 <= 15 /\ compute_weather_factor 15 = 0.9.
Proof.
  split; [lra|].
  apply (weather_factor_piecewise 15); lra.
Defined.

(** ** The estimation loop *)

Lemma append_loop {A B : Type} (f : A -> B) (l : list A) (acc : list B) :
  fold_left (fun results item => results ++ [f item]) l acc = acc ++ (f <$> l).
Proof.
  revert acc. induction l as [|a l IH]; intros acc; simpl.
  - rewrite app_nil_r. reflexivity.
  - rewrite IH, <- app_assoc. reflexivity.
Qed.

Lemma estimate_rows (r : Resolved) (inp : Inputs) :
  estimate r inp
  = (builtin_row r inp <$> transport_params inp)
    ++ (if use_custom_method inp then [custom_row r inp] else []).
Proof.
  unfold estimate. rewrite append_loop. simpl.
  destruct (use_custom_method inp); [reflexivity | rewrite app_nil_r; reflexivity].
Qed.

Lemma estimate_builtin_lookup (r : Resolved) (inp : Inputs) (i : nat)
    (item : string * TransportParams) :
  transport_params inp !! i = Some item ->
  estimate r inp !! i = Some (builtin_row r inp item).
Proof.
  intros H. rewrite estimate_rows.
  apply lookup_app_l_Some.
  apply list_lookup_fmap_Some_2. exact H.
Qed.

(** ** Standard models *)

(** C1.  Every standard model's elevation is
    [base_elevation + target_altitude_km * 1000 * efficiency * weather_factor]
    and its cost is
    [base_cost + cost_per_gram * payload_mass_g + cost_per_km * target_altitude_km];
    the row of a model holds these two numbers rounded to two decimals, and
    the rows of the standard models are the first rows of the output.  For
    the Drone with base elevation 10, factor 1.0, payload 10 g and 1 km the
    row is 1310.0 m and 20.65. *)
Theorem standard_model_formulas :
  (forall base_elev altitude_km efficiency weather_factor,
      simulate_elevation base_elev altitude_km efficiency weather_factor
      == base_elev + altitude_km * 1000 * efficiency * weather_factor)
  /\ (forall base_cost cost_per_gram cost_per_km mass_g altitude_km,
      estimate_cost base_cost cost_per_gram cost_per_km mass_g altitude_km
      == base_cost + cost_per_gram * mass_g + cost_per_km * altitude_km)
  /\ (forall r inp mode params,
      let row := builtin_row r inp (mode, params) in
      Mode row = mode
      /\ Final_Elevation_m row
         = Py.round (final_base_elev r
                     + altitude_km inp * 1000 * efficiency params
                       * computed_weather_factor r) 2
      /\ Estimated_Cost_USD row
         = Py.round (base_cost params + cost_per_gram params * duck_mass inp
                     + cost_per_km params * altitude_km inp) 2)
  /\ (forall r inp,
      take (length (transport_params inp)) (estimate r inp)
      = builtin_row r inp <$> transport_params inp)
  /\ simulate_elevation 10 1 1.3 1.0 == 1310.0
  /\ estimate_cost 20 0.05 0.15 10 1 == 20.65
  /\ exists row,
      run_simulation fresh_session drone_scenario = inr [row]
      /\ Mode row = "Drone"%string
      /\ Final_Elevation_m row == 1310.0
      /\ Estimated_Cost_USD row == 20.65.
Proof.
  split; [|split; [|split; [|split; [|split; [|split]]]]].
  - intros. unfold simulate_elevation. ring.
  - intros. unfold estimate_cost. ring.
  - intros r inp mode params. simpl. split; [reflexivity|].
    split; apply round_comp.
    + unfold simulate_elevation. ring.
    + unfold estimate_cost. ring.
  - intros r inp. rewrite estimate_rows.
    rewrite <- (length_fmap (builtin_row r inp)). apply take_app_length.
  - vm_compute. reflexivity.
  - vm_compute. reflexivity.
  - eexists. split; [vm_compute; reflexivity|].
    split; [reflexivity|]. split; vm_compute; reflexivity.
Qed.

(** ** The custom model *)

(** C5.  The custom model's elevation is
    [max(base_elevation + target_altitude_km * 1000 * efficiency * weather_factor - wind_penalty, 0)]
    with [wind_penalty = wind_speed * wind_sensitivity]: it is never
    negative, however large the penalty, and so is the number in the custom
    row. *)
Theorem custom_elevation_floor :
  (forall base_elev altitude_km efficiency weather_factor
          wind_sensitivity wind_speed,
      let raw_elevation :=
        base_elev + altitude_km * 1000 * efficiency * weather_factor
        - wind_speed * wind_sensitivity in
      simulate_custom_elevation base_elev altitude_km efficiency
        weather_factor wind_sensitivity wind_speed
      == Qmax raw_elevation 0
      /\ 0 <= simulate_custom_elevation base_elev altitude_km efficiency
                weather_factor wind_sensitivity wind_speed
      /\ (raw_elevation < 0 ->
          simulate_custom_elevation base_elev altitude_km efficiency
            weather_factor wind_sensitivity wind_speed = 0)
      /\ (0 <= raw_elevation ->
          simulate_custom_elevation base_elev altitude_km efficiency
            weather_factor wind_sensitivity wind_speed == raw_elevation))
  /\ (forall r inp,
      let cm := custom_lift_method inp in
      Final_Elevation_m (custom_row r inp)
      = Py.round
          (Qmax (final_base_elev r
                 + altitude_km inp * 1000 * cm_efficiency cm
                   * computed_weather_factor r
                 - wind_speed r * cm_wind_sensitivity cm) 0) 2
      /\ 0 <= Final_Elevation_m (custom_row r inp)).
Proof.
  split.
  - intros b a e w s ws raw.
    assert (Hraw : simulate_custom_elevation b a e w s ws = Py.max raw 0)
      by reflexivity.
    rewrite Hraw. split; [apply max_Qmax|]. split; [apply max_zero_nonneg|].
    unfold Py.max. split; intros H.
    + apply lt_true in H. rewrite H. reflexivity.
    + apply lt_false in H. rewrite H. reflexivity.
  - intros r inp cm. split.
    + unfold custom_row. cbn [Final_Elevation_m]. apply round_comp.
      unfold simulate_custom_elevation, wind_penalty. apply max_Qmax.
    + unfold custom_row. cbn [Final_Elevation_m]. apply round_nonneg.
      apply max_zero_nonneg.
Qed.

(** A penalty of 5000 m against a raw climb of 1210 m: the model returns 0. *)
Example custom_elevation_floored :
  simulate_custom_elevation 10 1 1.2 1.0 1 5000 = 0.
Proof. reflexivity. Qed.

(** C6.  The custom model's cost is
    [overhead_factor * (base_cost + cost_per_gram * payload_mass_g + cost_per_km * target_altitude_km + setup_time_hours * labor_rate + material_factor)];
    the custom row holds it rounded to two decimals.  With the default
    custom parameters, a 10 g payload and 1 km it is 1.2 * 80.55 = 96.66. *)
Theorem custom_cost_formula :
  (forall base_cost cost_per_gram cost_per_km mass_g altitude_km
          setup_time_hours labor_rate material_factor overhead_factor,
      estimate_custom_cost base_cost cost_per_gram cost_per_km mass_g
        altitude_km setup_time_hours labor_rate material_factor
        overhead_factor
      == overhead_factor
         * (base_cost + cost_per_gram * mass_g + cost_per_km * altitude_km
            + setup_time_hours * labor_rate + material_factor))
  /\ (forall r inp,
      let cm := custom_lift_method inp in
      Estimated_Cost_USD (custom_row r inp)
      = Py.round
          (cm_overhead_factor cm
           * (cm_base_cost cm + cm_cost_per_gram cm * duck_mass inp
              + cm_cost_per_km cm * altitude_km inp
              + cm_setup_time_hours cm * cm_labor_rate cm
              + cm_material_factor cm)) 2)
  /\ 30 + 0.03 * 10 + 0.25 * 1 + 2 * 20 + 10 == 80.55
  /\ estimate_custom_cost 30 0.03 0.25 10 1 2 20 10 1.2 == 1.2 * 80.55
  /\ estimate_custom_cost 30 0.03 0.25 10 1 2 20 10 1.2 == 96.66
  /\ (forall r, Estimated_Cost_USD (custom_row r custom_scenario) == 96.66).
Proof.
  split; [|split; [|split; [|split; [|split]]]].
  - intros. unfold estimate_custom_cost. ring.
  - intros r inp cm. unfold custom_row. cbn [Estimated_Cost_USD].
    apply round_comp. unfold estimate_custom_cost. subst cm. ring.
  - vm_compute. reflexivity.
  - vm_compute. reflexivity.
  - vm_compute. reflexivity.
  - intros r. vm_compute. reflexivity.
Qed.

(** ** The budget formula of the oldest variant *)


Example budget_formula_binary64_values :
  AppOld64.simulate_elevation 10 500 1.05 0.9 = 482.50000000000006%float
  /\ (10 + 500 * 1.05 * 0.9)%float = 482.5%float.
Proof. split; vm_compute; reflexivity. Qed.


(** ** Parameter resolution *)

(** Case analysis on the four values that decide the outcome of [resolve]. *)
Ltac resolve_cases st inp :=
  unfold resolve;
  destruct (base_elev st) as [?elev|] eqn:?Helev;
  destruct (weather_data st) as [?wd|] eqn:?Hwd;
  destruct (override_base_elev inp) eqn:?Hoe;
  destruct (override_weather inp) eqn:?How;
  cbn [is_None negb andb].

(** The three outcomes of [resolve], by the four deciding values. *)
Lemma resolve_outcomes (st : SessionState) (inp : Inputs) :
  (resolve st inp = inl MissingElevationError
   <-> base_elev st = None /\ override_base_elev inp = false)
  /\ (resolve st inp = inl MissingWeatherError
      <-> (weather_data st = None /\ override_weather inp = false)
          /\ ~ (base_elev st = None /\ override_base_elev inp = false))
  /\ ((exists r, resolve st inp = inr r)
      <-> ~ (base_elev st = None /\ override_base_elev inp = false)
          /\ ~ (weather_data st = None /\ override_weather inp = false)).
Proof.
  resolve_cases st inp;
    repeat match goal with
           | |- _ /\ _ => split
           | |- _ <-> _ => split
           | |- _ -> _ => intro
           | H : _ /\ _ |- _ => destruct H
           | H : exists _, _ |- _ => destruct H
           | |- ~ _ => intro
           end;
    try discriminate; try congruence; try reflexivity; eauto;
    try (exfalso; eauto; fail).
Qed.

(** On a fresh session with every widget at its default both fields are
    undetermined, and the run stops at the elevation check: the weather
    condition holds, yet the failure reported is not the weather one. *)
Lemma weather_failure_masked :
  resolve fresh_session default_inputs = inl MissingElevationError
  /\ ~ (resolve fresh_session default_inputs = inl MissingWeatherError
        <-> weather_data fresh_session = None
            /\ override_weather default_inputs = false).
Proof.
  split; [reflexivity|].
  intros [_ H]. specialize (H (conj eq_refl eq_refl)). discriminate H.
Qed.

(** C2, as the code has it.  Resolution fails with MissingElevationError
    exactly when there is no elevation reading and the elevation override is
    off.  It fails with MissingWeatherError exactly when there is no weather
    reading, the weather override is off, and the elevation check has not
    already failed.  It succeeds exactly when neither field is undetermined;
    in particular it succeeds whenever exactly one reading is missing and
    that field's override is set. *)
Theorem resolve_failure_conditions (st : SessionState) (inp : Inputs) :
  (resolve st inp = inl MissingElevationError
   <-> base_elev st = None /\ override_base_elev inp = false)
  /\ (resolve st inp = inl MissingWeatherError
      <-> (weather_data st = None /\ override_weather inp = false)
          /\ ~ (base_elev st = None /\ override_base_elev inp = false))
  /\ ((exists r, resolve st inp = inr r)
      <-> ~ (base_elev st = None /\ override_base_elev inp = false)
          /\ ~ (weather_data st = None /\ override_weather inp = false))
  /\ (base_elev st = None -> weather_data st <> None ->
      override_base_elev inp = true -> exists r, resolve st inp = inr r)
  /\ (weather_data st = None -> base_elev st <> None ->
      override_weather inp = true -> exists r, resolve st inp = inr r).
Proof.
  destruct (resolve_outcomes st inp) as (Helev & Hweather & Hok).
  split; [exact Helev|]. split; [exact Hweather|]. split; [exact Hok|].
  split; intros Hnone Hsome Hset; apply Hok; split; intros [H1 H2]; congruence.
Qed.

(** C7.  In a run that resolves, each field is decided by its own flag: with
    the override set the manual value is used whatever the session holds;
    with the override off and a reading present the reading is used, the
    weather factor being [compute_weather_factor] of the reading's wind
    speed. *)
Theorem override_precedence (st : SessionState) (inp : Inputs) (r : Resolved) :
  resolve st inp = inr r ->
  (override_base_elev inp = true ->
   final_base_elev r = manual_base_elev inp)
  /\ (override_base_elev inp = false ->
      forall elev, base_elev st = Some elev -> final_base_elev r = elev)
  /\ (override_weather inp = true ->
      computed_weather_factor r = manual_weather_factor inp)
  /\ (override_weather inp = false ->
      forall wd, weather_data st = Some wd ->
        computed_weather_factor r
        = compute_weather_factor (default 0 (wd !! "wind_speed"%string))).
Proof.
  resolve_cases st inp; intros H; try discriminate H;
    injection H as <-; cbn [final_base_elev computed_weather_factor];
    repeat split; intros; try discriminate; try congruence.
Qed.

(** With readings of 10 m and 25 km/h in the session and both overrides set
    to 300 m and 1.25, the manual values win. *)
Lemma override_precedence_witness :
  let inp :=
    mkInputs true 300 true 1.25 10 TRANSPORT_MODES default_custom false 1 in
  resolve windy_session inp = inr (mkResolved 300 0 1.25)
  /\ final_base_elev (mkResolved 300 0 1.25) = 300
  /\ computed_weather_factor (mkResolved 300 0 1.25) = 1.25.
Proof.
  intros inp.
  assert (H : resolve windy_session inp = inr (mkResolved 300 0 1.25))
    by reflexivity.
  split; [exact H|].
  destruct (override_precedence windy_session inp _ H) as (He & _ & Hw & _).
  split; [apply He | apply Hw]; reflexivity.
Defined.

(** The same session with no override: the readings win, and 25 km/h gives
    the factor 0.8. *)
Example readings_used :
  resolve windy_session default_inputs = inr (mkResolved 10 25 0.8).
Proof. reflexivity. Qed.

(** The raw wind speed does not survive an override of the weather factor:
    with a reading of 25 km/h in the session, the override set and the
    default custom method (sensitivity 0.1) included, the custom elevation is
    not the one a penalty of 25 * 0.1 gives. *)
Lemma wind_dropped_on_override :
  ~ (forall r wd w,
       resolve windy_session override_weather_scenario = inr r ->
       weather_data windy_session = Some wd ->
       wd !! "wind_speed"%string = Some w ->
       let inp := override_weather_scenario in
       let cm := custom_lift_method inp in
       Final_Elevation_m (custom_row r inp)
       == Py.round
            (Py.max (final_base_elev r
                     + altitude_km inp * 1000 * cm_efficiency cm
                       * computed_weather_factor r
                     - wind_penalty w (cm_wind_sensitivity cm)) 0) 2).
Proof.
  intros H.
  specialize (H (mkResolved 10 0 1.0)
                {[ "temperature"%string := 21; "wind_speed"%string := 25 ]} 25
                eq_refl eq_refl eq_refl).
  vm_compute in H. discriminate H.
Qed.

(** What that run yields: wind speed 0, and a custom elevation of 1210.0 m
    where a penalty of 2.5 would give 1207.5 m. *)
Example wind_dropped_values :
  resolve windy_session override_weather_scenario = inr (mkResolved 10 0 1.0)
  /\ Final_Elevation_m
       (custom_row (mkResolved 10 0 1.0) override_weather_scenario) == 1210
  /\ Py.round (Py.max (10 + 1 * 1000 * 1.2 * 1.0 - wind_penalty 25 0.1) 0) 2
     == 1207.5.
Proof. repeat split. Qed.

(** C3, as the code has it.  In a run that resolves, the wind speed handed to
    the custom model is the reading's wind speed (0 when the reading has no
    such entry) if the weather factor is not overridden, and 0 if it is; the
    custom elevation is computed with the penalty
    [wind_speed * wind_sensitivity] for that wind speed.  So with the
    override set the penalty is 0. *)
Theorem custom_wind_speed (st : SessionState) (inp : Inputs) (r : Resolved) :
  resolve st inp = inr r ->
  (override_weather inp = false ->
   exists wd, weather_data st = Some wd
              /\ wind_speed r = default 0 (wd !! "wind_speed"%string))
  /\ (override_weather inp = true ->
      wind_speed r = 0
      /\ wind_penalty (wind_speed r)
           (cm_wind_sensitivity (custom_lift_method inp)) == 0)
  /\ (use_custom_method inp = true ->
      let cm := custom_lift_method inp in
      last (estimate r inp) = Some (custom_row r inp)
      /\ Final_Elevation_m (custom_row r inp)
         = Py.round
             (Py.max (final_base_elev r
                      + altitude_km inp * 1000 * cm_efficiency cm
                        * computed_weather_factor r
                      - wind_penalty (wind_speed r) (cm_wind_sensitivity cm))
                0) 2).
Proof.
  intros H. split; [|split].
  - revert H. resolve_cases st inp; intros H; try discriminate H;
      injection H as <-; intros; try discriminate; eauto.
  - revert H. resolve_cases st inp; intros H; try discriminate H;
      injection H as <-; intros; try discriminate;
      (split; [reflexivity | unfold wind_penalty; cbn [wind_speed]; ring]).
  - intros Hc cm. split.
    + rewrite estimate_rows, Hc. apply last_snoc.
    + reflexivity.
Qed.

(** The defaults with the custom method included, on a session with a
    25 km/h reading: the penalty is 25 * 0.1 and the custom elevation
    10 + 1000 * 1.2 * 0.8 - 2.5 = 967.5 m. *)
Lemma custom_wind_speed_witness :
  resolve windy_session custom_scenario = inr (mkResolved 10 25 0.8)
  /\ wind_speed (mkResolved 10 25 0.8) = 25
  /\ Final_Elevation_m (custom_row (mkResolved 10 25 0.8) custom_scenario)
     == 967.5.
Proof.
  assert (H : resolve windy_session custom_scenario
              = inr (mkResolved 10 25 0.8)) by reflexivity.
  split; [exact H|].
  destruct (custom_wind_speed windy_session custom_scenario _ H)
    as (Hw & _ & Hc).
  split.
  - destruct (Hw eq_refl) as (wd & Hwd & ->).
    injection Hwd as <-. reflexivity.
  - destruct (Hc eq_refl) as [_ ->]. vm_compute. reflexivity.
Defined.

(** A reading without ["wind_speed"] is not a missing reading: the lookup
    falls back to 0. *)
Lemma resolve_without_wind_entry (st : SessionState) (inp : Inputs)
    (wd : gmap string Q) (r : Resolved) :
  weather_data st = Some wd ->
  wd !! "wind_speed"%string = None ->
  override_weather inp = false ->
  resolve st inp = inr r ->
  wind_speed r = 0 /\ computed_weather_factor r = 1.0.
Proof.
  intros Hwd Hnone How. unfold resolve.
  rewrite Hwd, How, Hnone. cbn [is_None negb andb default].
  destruct (is_None (base_elev st) && negb (override_base_elev inp));
    intros H; [discriminate H|].
  injection H as <-. split; reflexivity.
Qed.

(** C10.  With a weather reading in the session, the weather override off and
    no ["wind_speed"] entry in the reading, resolution does not fail with
    MissingWeatherError: it succeeds as soon as the elevation is determined,
    with wind speed 0, weather factor 1.0 and a custom wind penalty of 0.
    The second variant resolves the factor the same way. *)
Theorem missing_wind_speed_defaults (st : SessionState) (inp : Inputs)
    (wd : gmap string Q) :
  weather_data st = Some wd ->
  wd !! "wind_speed"%string = None ->
  override_weather inp = false ->
  resolve st inp <> inl MissingWeatherError
  /\ (~ (base_elev st = None /\ override_base_elev inp = false) ->
      exists r, resolve st inp = inr r)
  /\ (forall r, resolve st inp = inr r ->
        wind_speed r = 0
        /\ computed_weather_factor r = 1.0
        /\ wind_penalty (wind_speed r)
             (cm_wind_sensitivity (custom_lift_method inp)) == 0
        /\ Final_Elevation_m (custom_row r inp)
           = Py.round
               (Py.max (final_base_elev r
                        + altitude_km inp * 1000
                          * cm_efficiency (custom_lift_method inp) * 1.0) 0) 2)
  /\ (forall elev override_base_elev manual_base_elev manual_weather_factor,
        App2.resolve (Some elev) (Some wd) override_base_elev
          manual_base_elev false manual_weather_factor
        = inr (if override_base_elev then manual_base_elev else elev, 1.0)).
Proof.
  intros Hwd Hnone How.
  pose proof (resolve_outcomes st inp) as (_ & Hweather & Hok).
  split; [|split; [|split]].
  - intros H. apply Hweather in H. destruct H as [[H _] _]. congruence.
  - intros Helev. apply Hok. split; [exact Helev|].
    intros [H _]. congruence.
  - intros r Hr.
    destruct (resolve_without_wind_entry st inp wd r Hwd Hnone How Hr)
      as [Hws Hwf].
    split; [exact Hws|]. split; [exact Hwf|]. split.
    + rewrite Hws. unfold wind_penalty. ring.
    + unfold custom_row. cbn [Final_Elevation_m]. apply round_comp.
      unfold simulate_custom_elevation, wind_penalty.
      rewrite Hws, Hwf.
      set (x := final_base_elev r + _ - _).
      set (y := final_base_elev r + _).
      assert (E : x == y) by (subst x y; ring).
      rewrite !max_Qmax. rewrite E. reflexivity.
  - intros elev ob mb mw. unfold App2.resolve.
    rewrite Hnone. destruct ob; reflexivity.
Qed.

(** The defaults with the custom method included, on a session whose weather
    reading has a temperature only: the run resolves to wind speed 0 and
    factor 1.0. *)
Lemma missing_wind_speed_defaults_witness :
  resolve windless_session custom_scenario = inr (mkResolved 10 0 1.0)
  /\ resolve windless_session custom_scenario <> inl MissingWeatherError
  /\ wind_speed (mkResolved 10 0 1.0) = 0
  /\ computed_weather_factor (mkResolved 10 0 1.0) = 1.0.
Proof.
  assert (H : resolve windless_session custom_scenario
              = inr (mkResolved 10 0 1.0)) by reflexivity.
  destruct (missing_wind_speed_defaults windless_session custom_scenario
              {[ "temperature"%string := 21 ]} eq_refl eq_refl eq_refl)
    as (Hne & _ & Hr & _).
  destruct (Hr _ H) as (Hws & Hwf & _).
  repeat split; assumption.
Defined.

(** ** Output order *)

(** Step 4 keeps the built-in modes in the order of [TRANSPORT_MODES],
    whatever values the widgets hold. *)
Lemma configured_keys (widgets : string -> TransportParams -> TransportParams) :
  Py.keys (configure_transport_params widgets)
  = ["Helium Balloon"; "Weather Balloon"; "Drone"; "Hot Air Balloon";
     "Catapult"]%string.
Proof. reflexivity. Qed.

Lemma estimate_modes (r : Resolved) (inp : Inputs) :
  Mode <$> estimate r inp
  = Py.keys (transport_params inp)
    ++ (if use_custom_method inp
        then [cm_name (custom_lift_method inp)] else []).
Proof.
  rewrite estimate_rows, fmap_app. f_equal.
  - unfold Py.keys. rewrite <- list_fmap_compose.
    apply list_fmap_ext. intros _ [mode params] _. reflexivity.
  - destruct (use_custom_method inp); reflexivity.
Qed.

(** C8.  A run that resolves emits one row per active model: the rows of the
    registry's models in the registry's insertion order, then, if the custom
    method is included, its row last, whatever its name.  An identical input
    gives the identical sequence. *)
Theorem result_order (st : SessionState) (inp : Inputs)
    (rows : list ResultRow) :
  run_simulation st inp = inr rows ->
  Mode <$> rows
  = Py.keys (transport_params inp)
    ++ (if use_custom_method inp
        then [cm_name (custom_lift_method inp)] else [])
  /\ length rows
     = (length (transport_params inp)
        + (if use_custom_method inp then 1 else 0))%nat
  /\ (forall i mode params,
        transport_params inp !! i = Some (mode, params) ->
        exists row, rows !! i = Some row /\ Mode row = mode)
  /\ (use_custom_method inp = true ->
      exists row, last rows = Some row
                  /\ rows !! length (transport_params inp) = Some row
                  /\ Mode row = cm_name (custom_lift_method inp))
  /\ (forall st' inp',
        st' = st -> inp' = inp -> run_simulation st' inp' = inr rows).
Proof.
  unfold run_simulation. destruct (resolve st inp) as [e | r] eqn:Hr;
    intros H; [discriminate H|]. injection H as <-.
  split; [apply estimate_modes|]. split; [|split; [|split]].
  - rewrite estimate_rows, length_app, length_fmap.
    destruct (use_custom_method inp); reflexivity.
  - intros i mode params Hi. exists (builtin_row r inp (mode, params)).
    split; [apply estimate_builtin_lookup; exact Hi | reflexivity].
  - intros Hc. exists (custom_row r inp). rewrite estimate_rows, Hc.
    split; [apply last_snoc|]. split; [|reflexivity].
    rewrite lookup_app_r; rewrite length_fmap; [|lia].
    rewrite Nat.sub_diag. reflexivity.
  - intros st' inp' -> ->. rewrite Hr. reflexivity.
Qed.

(** The default widgets with the custom method included, on a session with
    readings: six rows, the five built-in modes in the order of
    [TRANSPORT_MODES] and then the custom method. *)
Lemma result_order_witness :
  let rows := estimate (mkResolved 10 25 0.8) custom_scenario in
  run_simulation windy_session custom_scenario = inr rows
  /\ Mode <$> rows
     = ["Helium Balloon"; "Weather Balloon"; "Drone"; "Hot Air Balloon";
        "Catapult"; "MyCustomMethod"]%string.
Proof.
  intros rows.
  assert (H : run_simulation windy_session custom_scenario = inr rows)
    by reflexivity.
  split; [exact H|].
  destruct (result_order windy_session custom_scenario rows H) as [Hm _].
  rewrite Hm. reflexivity.
Defined.

(** The custom row stays last even when its name sorts first, or repeats the
    name of a built-in mode. *)
Example custom_row_last_any_name (name : string) :
  let inp :=
    mkInputs false 0 false 1.0 10 TRANSPORT_MODES
      (mkCustom name 30 0.03 0.25 1.2 2 20 10 1.2 0.1) true 1 in
  Mode <$> estimate (mkResolved 10 25 0.8) inp
  = ["Helium Balloon"; "Weather Balloon"; "Drone"; "Hot Air Balloon";
     "Catapult"; name]%string.
Proof. intros inp. rewrite estimate_modes. reflexivity. Qed.

(** ** The gate of the second variant *)

(** [app2.py] has one combined check: it stops when some reading is missing
    unless both overrides are set. *)
Lemma app2_gate (base_elev : option Q) (weather_data : option (gmap string Q))
    (override_base_elev : bool) (manual_base_elev : Q)
    (override_weather : bool) (manual_weather_factor : Q) :
  App2.resolve base_elev weather_data override_base_elev manual_base_elev
    override_weather manual_weather_factor = inl App2.MissingData
  <-> (base_elev = None \/ weather_data = None)
      /\ ~ (override_base_elev = true /\ override_weather = true).
Proof.
  unfold App2.resolve.
  destruct base_elev, weather_data, override_base_elev, override_weather;
    cbn [is_None negb andb orb]; split;
    try discriminate; try reflexivity; intuition congruence.
Qed.

(** So there a missing elevation reading with the elevation override set
    still stops the run when the weather override is off, although a weather
    reading is present. *)
Example app2_single_override_blocked :
  App2.resolve None (Some {[ "wind_speed"%string := 5 ]}) true 10 false 1.0
  = inl App2.MissingData.
Proof. reflexivity. Qed.

(** * Further properties *)

(** ** Rounding *)

Lemma round_half_even_upper (x : Q) : (Py.round_half_even x <= Qfloor x + 1)%Z.
Proof.
  unfold Py.round_half_even.
  destruct (_ ?= _); [destruct (Z.even _)|..]; lia.
Qed.

Lemma round_half_even_mono (x y : Q) :
  x <= y -> (Py.round_half_even x <= Py.round_half_even y)%Z.
Proof.
  intros Hxy.
  pose proof (Qfloor_resp_le x y Hxy) as Hf.
  destruct (Z.eq_dec (Qfloor x) (Qfloor y)) as [E | N].
  - unfold Py.round_half_even. rewrite E.
    destruct (Qcompare_spec (x - inject_Z (Qfloor y)) (1 # 2)) as [Hx|Hx|Hx];
      destruct (Qcompare_spec (y - inject_Z (Qfloor y)) (1 # 2)) as [Hy|Hy|Hy];
      try destruct (Z.even (Qfloor y)); try lia; exfalso; lra.
  - pose proof (round_half_even_upper x).
    pose proof (round_half_even_lower y). lia.
Qed.

Lemma scale_pos (n : nat) : 0 < inject_Z (10 ^ Z.of_nat n).
Proof.
  rewrite <- (Zlt_Qlt 0). apply Z.pow_pos_nonneg; lia.
Qed.

Lemma round_mono (x y : Q) (n : nat) :
  x <= y -> Py.round x n <= Py.round y n.
Proof.
  intros Hxy. unfold Py.round.
  pose proof (scale_pos n) as Hs. set (s := inject_Z (10 ^ Z.of_nat n)) in *.
  apply Qmult_le_compat_r.
  - rewrite <- Zle_Qle. apply round_half_even_mono.
    apply Qmult_le_compat_r; lra.
  - apply Qlt_le_weak, Qinv_lt_0_compat, Hs.
Qed.

(** ** What the rows of [app.py] show *)

(** X2.  For a non-negative target altitude and efficiency, a weather factor
    derived from a wind speed takes away at most a fifth of the climb, and
    never lifts the result above the full climb or below the base. *)
Theorem wind_costs_at_most_a_fifth
    (base_elev altitude_km efficiency wind_speed : Q) :
  0 <= altitude_km -> 0 <= efficiency ->
  let final :=
    simulate_elevation base_elev altitude_km efficiency
      (compute_weather_factor wind_speed) in
  base_elev + (4 # 5) * (altitude_km * 1000 * efficiency) <= final
  /\ final <= base_elev + altitude_km * 1000 * efficiency
  /\ base_elev <= final.
Proof.
  intros Ha He final. subst final. unfold simulate_elevation.
  assert (Hp : 0 <= altitude_km * 1000 * efficiency).
  { apply Qmult_le_0_compat; [apply Qmult_le_0_compat|]; lra. }
  set (p := altitude_km * 1000 * efficiency) in *.
  factor_cases wind_speed; nra.
Qed.

Lemma wind_costs_at_most_a_fifth_witness :
  1208 <= simulate_elevation 8 1 1.5 (compute_weather_factor 30)
  /\ simulate_elevation 8 1 1.5 (compute_weather_factor 30) <= 1508.
Proof.
  destruct (wind_costs_at_most_a_fifth 8 1 1.5 30) as (Hl & Hu & _);
    [lra | lra |].
  split; [|lra].
  eapply Qle_trans; [|exact Hl]. vm_compute. discriminate.
Defined.

Lemma weather_factor_mono (w1 w2 : Q) :
  w1 <= w2 -> compute_weather_factor w2 <= compute_weather_factor w1.
Proof. intros H. factor_cases w1; factor_cases w2; lra. Qed.

Lemma weather_factor_range (w : Q) :
  4 # 5 <= compute_weather_factor w <= 1.
Proof. factor_cases w; lra. Qed.

Lemma max_zero_mono (a b : Q) : a <= b -> Py.max a 0 <= Py.max b 0.
Proof.
  intros H. rewrite !max_Qmax. apply Q.max_le_compat_r. exact H.
Qed.

(** The outcome of [resolve] when the weather reading decides. *)
Lemma resolve_from_reading (st : SessionState) (inp : Inputs)
    (wd : gmap string Q) (r : Resolved) :
  weather_data st = Some wd ->
  override_weather inp = false ->
  resolve st inp = inr r ->
  wind_speed r = default 0 (wd !! "wind_speed"%string)
  /\ computed_weather_factor r = compute_weather_factor (wind_speed r)
  /\ final_base_elev r
     = match base_elev st with
       | Some elev => if override_base_elev inp then manual_base_elev inp else elev
       | None => manual_base_elev inp
       end.
Proof.
  intros Hwd How. unfold resolve. rewrite Hwd, How.
  cbn [is_None negb andb].
  destruct (base_elev st) as [elev|]; destruct (override_base_elev inp);
    cbn [is_None negb andb]; intros H; try discriminate H;
    injection H as <-; repeat split.
Qed.

(** X3.  Between two sessions that differ in the reading's wind speed only,
    with the weather override off, the windier one shows no higher elevation
    in any row: for every built-in method of non-negative efficiency, and for
    the custom method when its efficiency and wind sensitivity are
    non-negative. *)
Theorem more_wind_never_higher (elev : option Q) (wd1 wd2 : gmap string Q)
    (inp : Inputs) (r1 r2 : Resolved) :
  override_weather inp = false ->
  default 0 (wd1 !! "wind_speed"%string)
  <= default 0 (wd2 !! "wind_speed"%string) ->
  0 <= altitude_km inp ->
  resolve (mkSession elev (Some wd1)) inp = inr r1 ->
  resolve (mkSession elev (Some wd2)) inp = inr r2 ->
  (forall mode params, 0 <= efficiency params ->
     Final_Elevation_m (builtin_row r2 inp (mode, params))
     <= Final_Elevation_m (builtin_row r1 inp (mode, params)))
  /\ (0 <= cm_efficiency (custom_lift_method inp) ->
      0 <= cm_wind_sensitivity (custom_lift_method inp) ->
      Final_Elevation_m (custom_row r2 inp)
      <= Final_Elevation_m (custom_row r1 inp)).
Proof.
  intros How Hw Ha H1 H2.
  destruct (resolve_from_reading (mkSession elev (Some wd1)) inp wd1 r1
              eq_refl How H1) as (W1 & F1 & B1).
  destruct (resolve_from_reading (mkSession elev (Some wd2)) inp wd2 r2
              eq_refl How H2) as (W2 & F2 & B2).
  cbn [base_elev] in B1, B2. rewrite <- B1 in B2.
  rewrite <- W1, <- W2 in Hw.
  pose proof (weather_factor_mono _ _ Hw) as Hf. rewrite <- F1, <- F2 in Hf.
  split.
  - intros mode params He. unfold builtin_row. cbn [Final_Elevation_m].
    apply round_mono. unfold simulate_elevation. rewrite B2.
    assert (Hp : 0 <= altitude_km inp * 1000 * efficiency params).
    { apply Qmult_le_0_compat; [apply Qmult_le_0_compat|]; lra. }
    set (p := altitude_km inp * 1000 * efficiency params) in *. nra.
  - intros He Hs. unfold custom_row. cbn [Final_Elevation_m].
    apply round_mono. unfold simulate_custom_elevation, wind_penalty.
    apply max_zero_mono. rewrite B2.
    set (cm := custom_lift_method inp) in *.
    assert (Hp : 0 <= altitude_km inp * 1000 * cm_efficiency cm).
    { apply Qmult_le_0_compat; [apply Qmult_le_0_compat|]; lra. }
    set (p := altitude_km inp * 1000 * cm_efficiency cm) in *. nra.
Qed.

(** A calm reading against one of 25 km/h, with the defaults and the custom
    method included. *)
Lemma more_wind_never_higher_witness :
  Final_Elevation_m
    (builtin_row (mkResolved 10 25 0.8) custom_scenario ("Drone"%string, Drone))
  <= Final_Elevation_m
       (builtin_row (mkResolved 10 0 1.0) custom_scenario ("Drone"%string, Drone))
  /\ Final_Elevation_m (custom_row (mkResolved 10 25 0.8) custom_scenario)
     <= Final_Elevation_m (custom_row (mkResolved 10 0 1.0) custom_scenario).
Proof.
  assert (Hw : default 0 (({[ "temperature"%string := 21 ]} : gmap string Q)
                          !! "wind_speed"%string)
               <= default 0 (({[ "temperature"%string := 21;
                                 "wind_speed"%string := 25 ]} : gmap string Q)
                             !! "wind_speed"%string))
    by (vm_compute; discriminate).
  assert (Ha : 0 <= altitude_km custom_scenario) by (vm_compute; discriminate).
  destruct (more_wind_never_higher (Some 10) _ _ custom_scenario
              (mkResolved 10 0 1.0) (mkResolved 10 25 0.8)
              eq_refl Hw Ha eq_refl eq_refl) as [Hb Hc].
  split.
  - apply Hb. vm_compute. discriminate.
  - apply Hc; vm_compute; discriminate.
Defined.

(** ** What a run of [app.py] does not depend on *)

(** X4.  A manual value whose override is off plays no part: changing it
    changes neither the outcome of the run nor any row. *)
Theorem unused_manual_values (st : SessionState)
    (override_base_elev override_weather use_custom_method : bool)
    (manual_base_elev manual_base_elev' : Q)
    (manual_weather_factor manual_weather_factor' : Q)
    (duck_mass altitude_km : Q)
    (transport_params : Py.dict TransportParams)
    (custom_lift_method : CustomLiftMethod) :
  run_simulation st
    (mkInputs false manual_base_elev override_weather manual_weather_factor
       duck_mass transport_params custom_lift_method use_custom_method
       altitude_km)
  = run_simulation st
      (mkInputs false manual_base_elev' override_weather manual_weather_factor
         duck_mass transport_params custom_lift_method use_custom_method
         altitude_km)
  /\ run_simulation st
       (mkInputs override_base_elev manual_base_elev false
          manual_weather_factor duck_mass transport_params custom_lift_method
          use_custom_method altitude_km)
     = run_simulation st
         (mkInputs override_base_elev manual_base_elev false
            manual_weather_factor' duck_mass transport_params
            custom_lift_method use_custom_method altitude_km).
Proof.
  destruct st as [[elev|] [wd|]];
    destruct override_base_elev, override_weather; split; reflexivity.
Qed.

(** X5.  With both overrides set the session plays no part: the run
    resolves, whatever was or was not fetched, to the manual values and a
    wind speed of 0.  With one override set, that field's reading plays no
    part. *)
Theorem overridden_readings_unused (st : SessionState)
    (override_base_elev override_weather use_custom_method : bool)
    (manual_base_elev manual_weather_factor duck_mass altitude_km : Q)
    (transport_params : Py.dict TransportParams)
    (custom_lift_method : CustomLiftMethod) :
  (let inp :=
     mkInputs true manual_base_elev true manual_weather_factor duck_mass
       transport_params custom_lift_method use_custom_method altitude_km in
   run_simulation st inp
   = inr (estimate (mkResolved manual_base_elev 0 manual_weather_factor) inp))
  /\ (forall elev',
        let inp :=
          mkInputs true manual_base_elev override_weather
            manual_weather_factor duck_mass transport_params
            custom_lift_method use_custom_method altitude_km in
        run_simulation (mkSession elev' (weather_data st)) inp
        = run_simulation st inp)
  /\ (forall weather',
        let inp :=
          mkInputs override_base_elev manual_base_elev true
            manual_weather_factor duck_mass transport_params
            custom_lift_method use_custom_method altitude_km in
        run_simulation (mkSession (base_elev st) weather') inp
        = run_simulation st inp).
Proof.
  destruct st as [[elev|] [wd|]]; split; [| split | | split | | split | | split];
    try reflexivity.
  all: try (intros [elev'|]; destruct override_weather; reflexivity).
  all: intros [wd'|]; destruct override_base_elev; reflexivity.
Qed.

(** X6.  The costs shown depend on the payload, the target altitude and the
    methods' parameters only: not on the session, the overrides, the manual
    values or the wind. *)
Theorem costs_ignore_conditions (r r' : Resolved)
    (override_base_elev override_base_elev' : bool)
    (manual_base_elev manual_base_elev' : Q)
    (override_weather override_weather' : bool)
    (manual_weather_factor manual_weather_factor' : Q)
    (duck_mass altitude_km : Q)
    (transport_params : Py.dict TransportParams)
    (custom_lift_method : CustomLiftMethod) (use_custom_method : bool) :
  Estimated_Cost_USD
    <$> estimate r
          (mkInputs override_base_elev manual_base_elev override_weather
             manual_weather_factor duck_mass transport_params
             custom_lift_method use_custom_method altitude_km)
  = Estimated_Cost_USD
      <$> estimate r'
            (mkInputs override_base_elev' manual_base_elev' override_weather'
               manual_weather_factor' duck_mass transport_params
               custom_lift_method use_custom_method altitude_km).
Proof.
  rewrite !estimate_rows, !fmap_app. f_equal.
  - rewrite <- !list_fmap_compose. apply list_fmap_ext.
    intros _ [mode params] _. reflexivity.
  - destruct use_custom_method; reflexivity.
Qed.

(** X7.  Including the custom method adds its row at the end and changes
    nothing else: the run fails in the same way, or shows the same built-in
    rows followed by the custom one. *)
Theorem custom_method_only_appends (st : SessionState)
    (override_base_elev override_weather : bool)
    (manual_base_elev manual_weather_factor duck_mass altitude_km : Q)
    (transport_params : Py.dict TransportParams)
    (custom_lift_method : CustomLiftMethod) :
  let without :=
    mkInputs override_base_elev manual_base_elev override_weather
      manual_weather_factor duck_mass transport_params custom_lift_method
      false altitude_km in
  let included :=
    mkInputs override_base_elev manual_base_elev override_weather
      manual_weather_factor duck_mass transport_params custom_lift_method
      true altitude_km in
  match run_simulation st without with
  | inl e => run_simulation st included = inl e
  | inr rows =>
      exists r, resolve st included = inr r
                /\ run_simulation st included
                   = inr (rows ++ [custom_row r included])
  end.
Proof.
  intros without included. unfold run_simulation.
  assert (E : resolve st included = resolve st without)
    by (destruct st as [[elev|] [wd|]];
        destruct override_base_elev, override_weather; reflexivity).
  rewrite E. destruct (resolve st without) as [e | r]; [reflexivity|].
  exists r. split; reflexivity.
Qed.

(** ** The custom method against a built-in one *)

(** X8.  For the values the widgets admit (non-negative cost parameters,
    payload and altitude, overhead factor at least 1) the custom method is
    never cheaper than a built-in method with the same base cost, cost per
    gram and cost per km, neither at full precision nor as shown; without
    setup, labor or material cost and with overhead 1 the two costs agree. *)
Theorem custom_never_cheaper
    (base_cost cost_per_gram cost_per_km mass_g altitude_km
     setup_time_hours labor_rate material_factor overhead_factor : Q) :
  0 <= base_cost -> 0 <= cost_per_gram -> 0 <= cost_per_km ->
  0 <= mass_g -> 0 <= altitude_km ->
  0 <= setup_time_hours -> 0 <= labor_rate -> 0 <= material_factor ->
  1 <= overhead_factor ->
  estimate_cost base_cost cost_per_gram cost_per_km mass_g altitude_km
  <= estimate_custom_cost base_cost cost_per_gram cost_per_km mass_g
       altitude_km setup_time_hours labor_rate material_factor overhead_factor
  /\ Py.round
       (estimate_cost base_cost cost_per_gram cost_per_km mass_g altitude_km) 2
     <= Py.round
          (estimate_custom_cost base_cost cost_per_gram cost_per_km mass_g
             altitude_km setup_time_hours labor_rate material_factor
             overhead_factor) 2
  /\ estimate_custom_cost base_cost cost_per_gram cost_per_km mass_g
       altitude_km 0 labor_rate 0 1
     == estimate_cost base_cost cost_per_gram cost_per_km mass_g altitude_km.
Proof.
  intros Hb Hg Hk Hm Ha Hs Hl Hf Ho.
  assert (Hle : estimate_cost base_cost cost_per_gram cost_per_km mass_g
                  altitude_km
                <= estimate_custom_cost base_cost cost_per_gram cost_per_km
                     mass_g altitude_km setup_time_hours labor_rate
                     material_factor overhead_factor).
  { unfold estimate_cost, estimate_custom_cost.
    pose proof (Qmult_le_0_compat _ _ Hg Hm).
    pose proof (Qmult_le_0_compat _ _ Hk Ha).
    pose proof (Qmult_le_0_compat _ _ Hs Hl).
    set (g := cost_per_gram * mass_g) in *.
    set (k := cost_per_km * altitude_km) in *.
    set (l := setup_time_hours * labor_rate) in *. nra. }
  split; [exact Hle|]. split; [apply round_mono; exact Hle|].
  unfold estimate_cost, estimate_custom_cost. ring.
Qed.

(** The default custom method against the Drone's cost parameters. *)
Lemma custom_never_cheaper_witness :
  estimate_cost 20 0.05 0.15 10 1
  <= estimate_custom_cost 20 0.05 0.15 10 1 2 20 10 1.2.
Proof.
  apply (custom_never_cheaper 20 0.05 0.15 10 1 2 20 10 1.2); lra.
Defined.

(** X9.  For a non-negative wind speed and wind sensitivity the custom
    elevation never exceeds what the built-in formula gives for the same
    efficiency, floored at 0; where the wind speed handed over is 0, as it is
    whenever the weather factor is overridden, and the built-in result is not
    negative, the two agree. *)
Theorem custom_never_higher
    (base_elev altitude_km efficiency weather_factor
     wind_sensitivity wind_speed : Q) :
  0 <= wind_speed -> 0 <= wind_sensitivity ->
  simulate_custom_elevation base_elev altitude_km efficiency weather_factor
    wind_sensitivity wind_speed
  <= Qmax (simulate_elevation base_elev altitude_km efficiency weather_factor) 0
  /\ (0 <= simulate_elevation base_elev altitude_km efficiency weather_factor ->
      simulate_custom_elevation base_elev altitude_km efficiency
        weather_factor wind_sensitivity 0
      == simulate_elevation base_elev altitude_km efficiency weather_factor).
Proof.
  intros Hw Hs. unfold simulate_custom_elevation, simulate_elevation,
    wind_penalty.
  pose proof (Qmult_le_0_compat _ _ Hw Hs) as Hp.
  set (x := base_elev + altitude_km * 1000 * efficiency * weather_factor).
  split.
  - rewrite max_Qmax. apply Q.max_le_compat_r. lra.
  - intros Hx. rewrite max_Qmax, Q.max_l; [ring | lra].
Qed.

(** 25 km/h at sensitivity 0.1 against the same climb without a penalty. *)
Lemma custom_never_higher_witness :
  simulate_custom_elevation 10 1 1.2 0.8 0.1 25
  <= Qmax (simulate_elevation 10 1 1.2 0.8) 0.
Proof.
  apply (custom_never_higher 10 1 1.2 0.8 0.1 25); lra.
Defined.

(** ** Fetching and the session *)

Lemma store_readings_fields (st : SessionState)
    (elev : option Q) (weather : option (gmap string Q)) :
  base_elev (store_readings st elev weather)
  = match elev with Some e => Some e | None => base_elev st end
  /\ weather_data (store_readings st elev weather)
     = match weather with Some w => Some w | None => weather_data st end.
Proof. destruct st, elev, weather; split; reflexivity. Qed.

Lemma dict_truthy_nonempty {V : Type} (d : gmap string V) :
  dict_truthy d = true <-> d <> ∅.
Proof.
  unfold dict_truthy. rewrite <- map_size_non_empty_iff.
  destruct (size d); simpl; split; intros; try lia; congruence.
Qed.

Lemma fetch_weather_nonempty
    (exchange : Exchange (gmap string (gmap string Q))) (cw : gmap string Q) :
  fetch_weather exchange = Some cw -> cw <> ∅.
Proof.
  destruct exchange as [|data]; [discriminate|]. simpl.
  destruct (data !! "current_weather"%string) as [c|]; [|discriminate].
  destruct (dict_truthy c) eqn:E; [|discriminate].
  intros [= <-]. apply dict_truthy_nonempty. exact E.
Qed.

(** X10.  After a click on the fetch button whose elevation body lists at
    least one result with an elevation and whose weather body holds a
    non-empty [current_weather], a run without overrides resolves, whatever
    the session held before: to the first result's elevation (also when it is
    0 or negative; later results are not read), the reading's wind speed (0
    without such an entry) and its weather factor. *)
Theorem fetched_readings_are_used (st : SessionState) (inp : Inputs)
    (edata : gmap string (list (gmap string Q)))
    (first : gmap string Q) (rest : list (gmap string Q)) (elev : Q)
    (wdata : gmap string (gmap string Q)) (cw : gmap string Q) :
  edata !! "results"%string = Some (first :: rest) ->
  first !! "elevation"%string = Some elev ->
  wdata !! "current_weather"%string = Some cw ->
  cw <> ∅ ->
  override_base_elev inp = false ->
  override_weather inp = false ->
  let ws := default 0 (cw !! "wind_speed"%string) in
  resolve (fetch_clicked st (Body edata) (Body wdata)) inp
  = inr (mkResolved elev ws (compute_weather_factor ws)).
Proof.
  intros Hres Hel Hcw Hne Hoe How ws.
  unfold fetch_clicked, fetch_base_elevation, fetch_weather.
  rewrite Hres, Hel, Hcw.
  apply dict_truthy_nonempty in Hne. rewrite Hne.
  unfold resolve.
  destruct (store_readings_fields st (Some elev) (Some cw)) as [-> ->].
  rewrite Hoe, How. reflexivity.
Qed.

(** A body with two results, the first at sea level, and a weather body with
    a wind speed of 12 km/h, fetched into a session that held other
    readings. *)
Lemma fetched_readings_are_used_witness :
  resolve
    (fetch_clicked windy_session
       (Body {[ "results"%string :=
                  [ {[ "elevation"%string := 0 ]};
                    {[ "elevation"%string := 99 ]} ] ]})
       (Body {[ "current_weather"%string :=
                  {[ "temperature"%string := 18;
                     "wind_speed"%string := 12 ]} ]}))
    default_inputs
  = inr (mkResolved 0 12 0.9).
Proof.
  rewrite (fetched_readings_are_used windy_session default_inputs
             {[ "results"%string :=
                  [ {[ "elevation"%string := 0 ]};
                    {[ "elevation"%string := 99 ]} ] ]}
             {[ "elevation"%string := 0 ]} [ {[ "elevation"%string := 99 ]} ] 0
             {[ "current_weather"%string :=
                  {[ "temperature"%string := 18;
                     "wind_speed"%string := 12 ]} ]}
             {[ "temperature"%string := 18; "wind_speed"%string := 12 ]});
    try reflexivity.
  apply dict_truthy_nonempty. reflexivity.
Defined.

(** X11.  A fetch that fails leaves the stored reading as it was.  The
    elevation fetch fails when the exchange raises, when the body has no
    ["results"] or an empty list there, or when the first result has no
    ["elevation"]; the weather fetch fails when the exchange raises or the
    body has no, or an empty, ["current_weather"].  When both fail the
    session, and with it every run, is unchanged. *)
Theorem failed_fetch_keeps_readings (st : SessionState)
    (xe : Exchange (gmap string (list (gmap string Q))))
    (xw : Exchange (gmap string (gmap string Q))) :
  (fetch_base_elevation xe = None
   <-> xe = Raised
       \/ exists data, xe = Body data
            /\ (data !! "results"%string = None
                \/ data !! "results"%string = Some []
                \/ exists first rest,
                     data !! "results"%string = Some (first :: rest)
                     /\ first !! "elevation"%string = None))
  /\ (fetch_weather xw = None
      <-> xw = Raised
          \/ exists data, xw = Body data
               /\ (data !! "current_weather"%string = None
                   \/ data !! "current_weather"%string = Some ∅))
  /\ (fetch_base_elevation xe = None ->
      base_elev (fetch_clicked st xe xw) = base_elev st)
  /\ (fetch_weather xw = None ->
      weather_data (fetch_clicked st xe xw) = weather_data st)
  /\ (fetch_base_elevation xe = None -> fetch_weather xw = None ->
      fetch_clicked st xe xw = st
      /\ forall inp,
           run_simulation (fetch_clicked st xe xw) inp = run_simulation st inp).
Proof.
  split; [|split; [|split; [|split]]].
  - destruct xe as [|data]; simpl.
    + split; auto.
    + destruct (data !! "results"%string) as [[|first rest]|] eqn:E.
      * split; [intros _; right; exists data; auto | reflexivity].
      * split.
        -- intros H. right. exists data. split; [reflexivity|].
           right; right. exists first, rest. auto.
        -- intros [H | (d & [= <-] & [H | [H | (f & r & H & Hf)]])];
             try discriminate H; rewrite E in H; try discriminate H.
           injection H as <- <-. exact Hf.
      * split; [intros _; right; exists data; auto | reflexivity].
  - destruct xw as [|data]; simpl.
    + split; auto.
    + destruct (data !! "current_weather"%string) as [cw|] eqn:E.
      * destruct (dict_truthy cw) eqn:T.
        -- split; [discriminate|].
           intros [H | (d & [= <-] & [H | H])];
             try discriminate H; rewrite E in H; try discriminate H.
           injection H as ->.
           apply dict_truthy_nonempty in T. congruence.
        -- split; [|reflexivity]. intros _. right. exists data.
           split; [reflexivity|]. right. rewrite E. f_equal.
           destruct (decide (size cw = 0%nat)) as [Z | N].
           ++ apply map_size_empty_iff in Z. exact Z.
           ++ apply map_size_non_empty_iff, dict_truthy_nonempty in N.
              congruence.
      * split; [intros _; right; exists data; auto | reflexivity].
  - intros H. unfold fetch_clicked. rewrite H.
    apply (store_readings_fields st None (fetch_weather xw)).
  - intros H. unfold fetch_clicked. rewrite H.
    apply (store_readings_fields st (fetch_base_elevation xe) None).
  - intros He Hw. unfold fetch_clicked. rewrite He, Hw.
    split; [|intros inp]; reflexivity.
Qed.

(** A session with readings, and a click during which both providers are
    unreachable. *)
Lemma failed_fetch_keeps_readings_witness :
  fetch_clicked windy_session Raised Raised = windy_session.
Proof.
  apply (failed_fetch_keeps_readings windy_session Raised Raised); reflexivity.
Defined.

(** X12.  Readings are never lost: a run that resolves still resolves, with
    the same inputs, after any further click on the fetch button, whether its
    fetches succeed or fail. *)
Theorem resolving_run_survives_fetch (st : SessionState) (inp : Inputs)
    (r : Resolved)
    (xe : Exchange (gmap string (list (gmap string Q))))
    (xw : Exchange (gmap string (gmap string Q))) :
  resolve st inp = inr r ->
  exists r', resolve (fetch_clicked st xe xw) inp = inr r'.
Proof.
  intros H.
  pose proof (resolve_outcomes st inp) as (_ & _ & Hok).
  pose proof (resolve_outcomes (fetch_clicked st xe xw) inp) as (_ & _ & Hok').
  apply Hok'. destruct (proj1 Hok (ex_intro _ r H)) as [He Hw].
  unfold fetch_clicked.
  destruct (store_readings_fields st (fetch_base_elevation xe)
              (fetch_weather xw)) as [-> ->].
  split; intros [Hn Ho].
  - destruct (fetch_base_elevation xe); [discriminate | auto].
  - destruct (fetch_weather xw); [discriminate | auto].
Qed.

(** A resolving run on a session with readings, and then a click during
    which the elevation provider answers with an empty result list and the
    weather provider is unreachable. *)
Lemma resolving_run_survives_fetch_witness :
  exists r',
    resolve (fetch_clicked windy_session (Body {[ "results"%string := [] ]})
               Raised) default_inputs = inr r'.
Proof.
  apply (resolving_run_survives_fetch windy_session default_inputs
           (mkResolved 10 25 0.8)).
  reflexivity.
Defined.

Lemma fold_fetch_clicked
    (clicks : list (Exchange (gmap string (list (gmap string Q)))
                    * Exchange (gmap string (gmap string Q))))
    (st : SessionState) :
  base_elev
    (fold_left (fun st click => fetch_clicked st (fst click) (snd click))
       clicks st)
  = match last (omap (fun click => fetch_base_elevation (fst click)) clicks) with
    | Some elev => Some elev
    | None => base_elev st
    end
  /\ weather_data
       (fold_left (fun st click => fetch_clicked st (fst click) (snd click))
          clicks st)
     = match last (omap (fun click => fetch_weather (snd click)) clicks) with
       | Some weather => Some weather
       | None => weather_data st
       end.
Proof.
  revert st. induction clicks as [|[xe xw] clicks IH]; intros st.
  - split; reflexivity.
  - cbn [fold_left fst snd].
    destruct (IH (fetch_clicked st xe xw)) as [IHe IHw].
    rewrite IHe, IHw. clear IH IHe IHw.
    unfold fetch_clicked.
    destruct (store_readings_fields st (fetch_base_elevation xe)
                (fetch_weather xw)) as [He Hw].
    rewrite He, Hw. clear He Hw.
    cbn [omap list_omap fst snd].
    split.
    + destruct (fetch_base_elevation xe) as [e|]; [|reflexivity].
      rewrite last_cons.
      destruct (last (omap _ clicks)); reflexivity.
    + destruct (fetch_weather xw) as [w|]; [|reflexivity].
      rewrite last_cons.
      destruct (last (omap _ clicks)); reflexivity.
Qed.

(** X13.  After any sequence of clicks on the fetch button in a fresh
    session, each stored reading is the result of the last fetch of its kind
    that succeeded, and is absent if none did; the stored weather reading is
    never an empty dictionary. *)
Theorem session_holds_last_success
    (clicks : list (Exchange (gmap string (list (gmap string Q)))
                    * Exchange (gmap string (gmap string Q)))) :
  base_elev (session_after clicks)
  = last (omap (fun click => fetch_base_elevation (fst click)) clicks)
  /\ weather_data (session_after clicks)
     = last (omap (fun click => fetch_weather (snd click)) clicks)
  /\ weather_data (session_after clicks) <> Some ∅.
Proof.
  unfold session_after.
  destruct (fold_fetch_clicked clicks fresh_session) as [He Hw].
  cbn [fresh_session base_elev weather_data] in He, Hw.
  assert (He' : forall o : option Q,
             match o with Some e => Some e | None => None end = o)
    by (intros [|]; reflexivity).
  assert (Hw' : forall o : option (gmap string Q),
             match o with Some e => Some e | None => None end = o)
    by (intros [|]; reflexivity).
  rewrite He' in He. rewrite Hw' in Hw.
  split; [exact He|]. split; [exact Hw|].
  rewrite Hw. intros Hl.
  apply last_Some in Hl. destruct Hl as [l' Hl].
  assert (Hin : (∅ : gmap string Q)
                ∈ omap (fun click => fetch_weather (snd click)) clicks)
    by (rewrite Hl; apply elem_of_app; right; apply list_elem_of_singleton;
        reflexivity).
  apply list_elem_of_omap in Hin. destruct Hin as (click & _ & Hf).
  apply fetch_weather_nonempty in Hf. congruence.
Qed.

(** ** The second variant against [app.py] *)

Lemma app2_needs_both_overrides_aux
    (elev : option Q) (weather : option (gmap string Q))
    (override_base_elev override_weather : bool)
    (manual_base_elev manual_weather_factor duck_mass altitude_km : Q)
    (transport_params : Py.dict TransportParams) :
  App2Main.run_simulation false elev weather override_base_elev
    manual_base_elev override_weather manual_weather_factor duck_mass
    transport_params altitude_km
  = if override_base_elev && override_weather
    then inr (App2Main.row manual_base_elev manual_weather_factor duck_mass
                altitude_km <$> transport_params)
    else inl App2.MissingData.
Proof.
  unfold App2Main.run_simulation, App2Main.readings, App2.resolve.
  destruct override_base_elev, override_weather; cbn; try reflexivity.
  rewrite append_loop. reflexivity.
Qed.

(** X14.  [app2.py] against [app.py], each with its own registry (four modes
    against five) and the same values in the widgets they share, in a script
    run of [app2.py] in which the run button, and so not the fetch button, is
    pressed.  Whenever the run of [app2.py] goes through, the run of [app.py]
    with the custom method left out goes through on every session, and shows
    the same four rows and the Weather Balloon's.  [app.py] resolves where
    [app2.py] stops exactly when not both overrides are set and each field
    has its reading or its override. *)
Theorem app2_agrees_when_it_runs
    (widgets : string -> TransportParams -> TransportParams)
    (st : SessionState)
    (elev : option Q) (weather : option (gmap string Q))
    (override_base_elev override_weather : bool)
    (manual_base_elev manual_weather_factor duck_mass altitude_km : Q)
    (custom_lift_method : CustomLiftMethod) :
  let inp :=
    mkInputs override_base_elev manual_base_elev override_weather
      manual_weather_factor duck_mass (configure_transport_params widgets)
      custom_lift_method false altitude_km in
  let app2 :=
    App2Main.run_simulation false elev weather override_base_elev
      manual_base_elev override_weather manual_weather_factor duck_mass
      (App2Main.configure_transport_params widgets) altitude_km in
  (forall rows, app2 = inr rows ->
     exists rows', run_simulation st inp = inr rows'
                   /\ without_weather_balloon rows' = rows
                   /\ length rows = 4%nat /\ length rows' = 5%nat)
  /\ ((app2 = inl App2.MissingData
       /\ exists rows', run_simulation st inp = inr rows')
      <-> ~ (override_base_elev = true /\ override_weather = true)
          /\ (base_elev st <> None \/ override_base_elev = true)
          /\ (weather_data st <> None \/ override_weather = true)).
Proof.
  intros inp app2. subst inp app2. split.
  - intros rows.
    rewrite app2_needs_both_overrides_aux.
    destruct override_base_elev, override_weather; cbn [andb];
      intros H; try discriminate H. injection H as <-.
    destruct st as [[e|] [wd|]]; eexists; (split; [reflexivity|]);
      repeat split.
  - rewrite app2_needs_both_overrides_aux.
    unfold run_simulation, resolve.
    destruct st as [[e|] [wd|]];
      destruct override_base_elev, override_weather;
      cbn;
      (split;
       [ intros [H [rows Hr]]; try discriminate H; try discriminate Hr;
         (split; [intros [? ?]; discriminate|]);
         split; first [left; discriminate | right; reflexivity]
       | intros (H1 & [H2 | H2] & [H3 | H3]);
         try discriminate; try congruence;
         try (exfalso; apply H1; split; reflexivity);
         (split; [reflexivity | eexists; reflexivity]) ]).
Qed.

(** X15.  In [app2.py] the readings live for one script run.  In a run in
    which the fetch button is not pressed they are absent whatever was
    fetched before, so the simulation goes through only with both overrides
    set, and is then computed from the two manual values. *)
Theorem app2_needs_both_overrides_without_fetch
    (elev : option Q) (weather : option (gmap string Q))
    (override_base_elev override_weather : bool)
    (manual_base_elev manual_weather_factor duck_mass altitude_km : Q)
    (transport_params : Py.dict TransportParams) :
  App2Main.run_simulation false elev weather override_base_elev
    manual_base_elev override_weather manual_weather_factor duck_mass
    transport_params altitude_km
  = if override_base_elev && override_weather
    then inr (App2Main.row manual_base_elev manual_weather_factor duck_mass
                altitude_km <$> transport_params)
    else inl App2.MissingData.
Proof.
  unfold App2Main.run_simulation, App2Main.readings, App2.resolve.
  destruct override_base_elev, override_weather; cbn; try reflexivity.
  rewrite append_loop. reflexivity.
Qed.

(** ** The oldest variant *)

Lemma old_formula_value (base_elev budget efficiency weather_factor : Q) :
  AppOld.simulate_elevation base_elev budget efficiency weather_factor
  == base_elev + budget * efficiency * weather_factor.
Proof. unfold AppOld.simulate_elevation. field. Qed.

Lemma appOld_rows_eq (budget_option : string) (base_elev : Q)
    (weather : gmap string Q) (use_manual_weather : bool)
    (manual_weather_factor : Q) :
  AppOldMain.run_simulation budget_option (Some base_elev) (Some weather)
    use_manual_weather manual_weather_factor
  = inr (AppOldMain.row base_elev (AppOldMain.budget budget_option)
           (if use_manual_weather then manual_weather_factor
            else compute_weather_factor
                   (default 0 (weather !! "wind_speed"%string)))
         <$> AppOldMain.TRANSPORT_MODES).
Proof. reflexivity. Qed.

(** X16.  The oldest variant has no way around a failed fetch: its run stops
    exactly when a reading is missing, also with the manual weather factor in
    use; otherwise it shows one row per mode of its list, in the order of the
    list. *)
Theorem appOld_needs_both_readings (budget_option : string)
    (base_elev : option Q) (weather : option (gmap string Q))
    (use_manual_weather : bool) (manual_weather_factor : Q) :
  (AppOldMain.run_simulation budget_option base_elev weather
     use_manual_weather manual_weather_factor
   = inl AppOldMain.MissingExternalData
   <-> base_elev = None \/ weather = None)
  /\ (forall rows,
        AppOldMain.run_simulation budget_option base_elev weather
          use_manual_weather manual_weather_factor = inr rows ->
        AppOldMain.Mode <$> rows
        = ["Helium Balloon"; "Drone"; "Hot Air Balloon"; "Catapult"]%string
        /\ AppOldMain.Efficiency <$> rows = [1.1; 1.3; 1.5; 1.05]).
Proof.
  destruct base_elev as [e|], weather as [wd|]; split;
    try (split; [intros H; try discriminate H; auto
                | intros [H | H]; try discriminate H; reflexivity]);
    intros rows H; try discriminate H.
  rewrite appOld_rows_eq in H. injection H as <-. split; reflexivity.
Qed.

(** X17.  Within one run of the oldest variant with a non-negative weather
    factor (every factor derived from a wind speed is one), a mode of higher
    efficiency never shows a lower elevation, and the $500 scenario never
    shows less than the $50 one for the same mode. *)
Theorem appOld_efficiency_orders_rows (budget_option : string)
    (base_elev : Q) (weather : gmap string Q)
    (use_manual_weather : bool) (manual_weather_factor : Q)
    (rows : list AppOldMain.Row) :
  (use_manual_weather = true -> 0 <= manual_weather_factor) ->
  AppOldMain.run_simulation budget_option (Some base_elev) (Some weather)
    use_manual_weather manual_weather_factor = inr rows ->
  (forall row1 row2, row1 ∈ rows -> row2 ∈ rows ->
     AppOldMain.Efficiency row1 <= AppOldMain.Efficiency row2 ->
     AppOldMain.Simulated_Total_Elevation_m row1
     <= AppOldMain.Simulated_Total_Elevation_m row2)
  /\ (forall rows50 rows500 i row50 row500,
        AppOldMain.run_simulation "$50" (Some base_elev) (Some weather)
          use_manual_weather manual_weather_factor = inr rows50 ->
        AppOldMain.run_simulation "$500" (Some base_elev) (Some weather)
          use_manual_weather manual_weather_factor = inr rows500 ->
        rows50 !! i = Some row50 -> rows500 !! i = Some row500 ->
        AppOldMain.Simulated_Total_Elevation_m row50
        <= AppOldMain.Simulated_Total_Elevation_m row500).
Proof.
  intros Hm Hrun.
  pose proof (appOld_rows_eq "$50" base_elev weather use_manual_weather
                manual_weather_factor) as E50.
  pose proof (appOld_rows_eq "$500" base_elev weather use_manual_weather
                manual_weather_factor) as E500.
  pose proof (appOld_rows_eq budget_option base_elev weather use_manual_weather
                manual_weather_factor) as E.
  set (wf := if use_manual_weather then manual_weather_factor
             else compute_weather_factor
                    (default 0 (weather !! "wind_speed"%string))) in *.
  assert (Hwf : 0 <= wf).
  { subst wf. destruct use_manual_weather; [auto|].
    pose proof (weather_factor_range
                  (default 0 (weather !! "wind_speed"%string))). lra. }
  assert (Hb : 0 <= AppOldMain.budget budget_option)
    by (unfold AppOldMain.budget; destruct (String.eqb _ _); lra).
  split.
  - assert (Hrows : rows = AppOldMain.row base_elev
                                (AppOldMain.budget budget_option) wf
                              <$> AppOldMain.TRANSPORT_MODES) by congruence.
    clear E E50 E500 Hrun.
    intros row1 row2 H1 H2. rewrite Hrows in H1, H2.
    apply list_elem_of_fmap in H1. destruct H1 as (m1 & -> & _).
    apply list_elem_of_fmap in H2. destruct H2 as (m2 & -> & _).
    unfold AppOldMain.row.
    cbn [AppOldMain.Efficiency AppOldMain.Simulated_Total_Elevation_m].
    intros He. apply round_mono. rewrite !old_formula_value.
    set (b := AppOldMain.budget budget_option) in *.
    pose proof (Qmult_le_0_compat _ _ Hb Hwf) as Hp.
    pose proof (Qmult_le_compat_r _ _ _ He Hp). nra.
  - intros rows50 rows500 i row50 row500 H50 H500 Hi50 Hi500.
    assert (R50 : rows50 = AppOldMain.row base_elev (AppOldMain.budget "$50")
                             wf <$> AppOldMain.TRANSPORT_MODES) by congruence.
    assert (R500 : rows500 = AppOldMain.row base_elev
                               (AppOldMain.budget "$500") wf
                             <$> AppOldMain.TRANSPORT_MODES) by congruence.
    rewrite R50 in Hi50. rewrite R500 in Hi500.
    rewrite list_lookup_fmap in Hi50, Hi500.
    destruct (AppOldMain.TRANSPORT_MODES !! i) as [m|] eqn:Em;
      [|discriminate Hi50].
    cbn [fmap option_fmap option_map] in Hi50, Hi500.
    injection Hi50 as <-. injection Hi500 as <-.
    unfold AppOldMain.row. cbn [AppOldMain.Simulated_Total_Elevation_m].
    apply round_mono. rewrite !old_formula_value.
    assert (He : 0 <= snd m).
    { apply list_elem_of_lookup_2 in Em.
      repeat (apply elem_of_cons in Em; destruct Em as [-> | Em];
              [vm_compute; discriminate|]).
      apply elem_of_nil in Em. contradiction. }
    change (AppOldMain.budget "$50") with 50.
    change (AppOldMain.budget "$500") with 500.
    pose proof (Qmult_le_0_compat _ _ He Hwf). nra.
Qed.

(** A reading of 12 km/h in the $500 scenario: the Hot Air Balloon
    (1.5) against the Catapult (1.05). *)
Lemma appOld_efficiency_orders_rows_witness :
  let rows := AppOldMain.row 10 500 0.9 <$> AppOldMain.TRANSPORT_MODES in
  AppOldMain.run_simulation "$500" (Some 10)
    (Some {[ "wind_speed"%string := 12 ]}) false 1.0 = inr rows
  /\ AppOldMain.Simulated_Total_Elevation_m
       (AppOldMain.row 10 500 0.9 ("Catapult"%string, 1.05))
     <= AppOldMain.Simulated_Total_Elevation_m
          (AppOldMain.row 10 500 0.9 ("Hot Air Balloon"%string, 1.5)).
Proof.
  intros rows.
  assert (H : AppOldMain.run_simulation "$500" (Some 10)
                (Some {[ "wind_speed"%string := 12 ]}) false 1.0 = inr rows)
    by reflexivity.
  split; [exact H|].
  assert (Hm : false = true -> 0 <= 1.0) by discriminate.
  destruct (appOld_efficiency_orders_rows "$500" 10
              {[ "wind_speed"%string := 12 ]} false 1.0 rows Hm H) as [Ho _].
  apply Ho.
  - subst rows. apply list_elem_of_fmap. eexists. split; [reflexivity|].
    do 3 apply list_elem_of_further. apply list_elem_of_here.
  - subst rows. apply list_elem_of_fmap. eexists. split; [reflexivity|].
    do 2 apply list_elem_of_further. apply list_elem_of_here.
  - vm_compute. discriminate.
Defined.

(** ** Step 4: the registry *)

Lemma setitem_new {V : Type} (k : string) (v : V) (d : Py.dict V) :
  k ∉ Py.keys d -> Py.setitem k v d = d ++ [(k, v)].
Proof.
  induction d as [|[k' v'] d IH]; intros Hk; [reflexivity|].
  cbn [Py.setitem]. unfold Py.keys in Hk. cbn in Hk.
  apply not_elem_of_cons in Hk. destruct Hk as [Hne Hk].
  destruct (String.eqb_spec k k') as [E | _]; [contradiction|].
  rewrite IH by exact Hk. reflexivity.
Qed.

Lemma setitem_loop {V W : Type} (f : string -> V -> W)
    (modes : Py.dict V) (acc : Py.dict W) :
  NoDup (Py.keys acc ++ Py.keys modes) ->
  fold_left (fun d '(mode, params) => Py.setitem mode (f mode params) d)
    modes acc
  = acc ++ ((fun item => (fst item, f (fst item) (snd item))) <$> modes).
Proof.
  revert acc. induction modes as [|[mode params] modes IH]; intros acc Hnd.
  - cbn. rewrite app_nil_r. reflexivity.
  - cbn [fold_left]. unfold Py.keys in Hnd. cbn in Hnd.
    apply NoDup_app in Hnd. destruct Hnd as (Hacc & Hdisj & Hmodes).
    apply NoDup_cons in Hmodes. destruct Hmodes as [Hfresh Hmodes].
    assert (Hnew : mode ∉ Py.keys acc).
    { intros Hin. apply (Hdisj mode Hin). apply list_elem_of_here. }
    rewrite setitem_new by exact Hnew.
    rewrite IH.
    + rewrite <- app_assoc. reflexivity.
    + unfold Py.keys. rewrite fmap_app. cbn.
      apply NoDup_app. split; [|split].
      * apply NoDup_app. split; [exact Hacc|]. split.
        -- intros x Hx Hx'. apply list_elem_of_singleton in Hx'. subst x.
           contradiction.
        -- apply NoDup_singleton.
      * intros x Hx Hx'. apply elem_of_app in Hx. destruct Hx as [Hx | Hx].
        -- apply (Hdisj x Hx). apply list_elem_of_further. exact Hx'.
        -- apply list_elem_of_singleton in Hx. subst x. contradiction.
      * exact Hmodes.
Qed.

(** X18.  The loop of step 4, run over any dictionary of modes (whose keys
    are distinct), yields one entry per mode, in the same order, holding the
    values of that mode's widgets.  For [TRANSPORT_MODES] this is the
    registry of the run: five distinct names, and the defaults themselves
    when no widget is touched. *)
Theorem step4_keeps_every_mode
    (widgets : string -> TransportParams -> TransportParams) :
  (forall modes : Py.dict TransportParams,
      NoDup (Py.keys modes) ->
      fold_left
        (fun transport_params '(mode, params) =>
           Py.setitem mode (widgets mode params) transport_params)
        modes []
      = (fun item => (fst item, widgets (fst item) (snd item))) <$> modes)
  /\ configure_transport_params widgets
     = (fun item => (fst item, widgets (fst item) (snd item)))
       <$> TRANSPORT_MODES
  /\ NoDup (Py.keys (configure_transport_params widgets))
  /\ configure_transport_params (fun _ params => params) = TRANSPORT_MODES.
Proof.
  split; [|split; [|split]].
  - intros modes Hnd. apply (setitem_loop widgets modes []). exact Hnd.
  - reflexivity.
  - apply NoDup_ListNoDup. cbn. repeat constructor; cbn;
      intuition discriminate.
  - reflexivity.
Qed.


(** ** The third variant against [app.py] *)

Lemma fold_left_pointwise {A B : Type} (f g : A -> B -> A) (l : list B)
    (acc : A) :
  (forall a b, f a b = g a b) -> fold_left f l acc = fold_left g l acc.
Proof.
  intros H. revert acc. induction l as [|b l IH]; intros acc; [reflexivity|].
  cbn [fold_left]. rewrite H. apply IH.
Qed.

(** X19.  [app3.py] against [app.py], each with its own registry (four
    modes against five) and the same values in the widgets they share, on the
    same session.  With the custom method left out the two runs fail in the
    same way, or [app.py] shows the four rows [app3.py] shows and the Weather
    Balloon's, which it puts second. *)
Theorem app3_agrees_without_custom
    (widgets : string -> TransportParams -> TransportParams)
    (st : SessionState)
    (override_base_elev override_weather : bool)
    (manual_base_elev manual_weather_factor duck_mass altitude_km : Q)
    (custom_lift_method : CustomLiftMethod) :
  let inp :=
    mkInputs override_base_elev manual_base_elev override_weather
      manual_weather_factor duck_mass (configure_transport_params widgets)
      custom_lift_method false altitude_km in
  match App3.run_simulation st override_base_elev manual_base_elev
          override_weather manual_weather_factor duck_mass
          (App3.configure_transport_params widgets) altitude_km with
  | inl e => run_simulation st inp = inl e
  | inr rows =>
      exists rows', run_simulation st inp = inr rows'
                    /\ without_weather_balloon rows' = rows
                    /\ delete 1%nat rows' = rows
                    /\ Mode <$> rows'
                       = ["Helium Balloon"; "Weather Balloon"; "Drone";
                          "Hot Air Balloon"; "Catapult"]%string
  end.
Proof.
  intros inp. subst inp.
  unfold run_simulation, App3.run_simulation, resolve, App3.resolve.
  destruct st as [[elev|] [wd|]];
    destruct override_base_elev, override_weather; cbn;
    try reflexivity; eexists; (split; [reflexivity|]); repeat split.
Qed.

(** ** Rows for inputs the widgets let through *)

Ltac split_range H :=
  unfold inputs_in_range, custom_in_range, params_in_range, between in H;
  repeat match type of H with
         | (_ && _)%bool = true =>
             let H' := fresh "R" in
             apply andb_prop in H; destruct H as [H H']
         end;
  repeat match goal with
         | R : Qle_bool _ _ = true |- _ => apply Qle_bool_iff in R
         | R : (_ && _)%bool = true |- _ =>
             let R' := fresh "R" in
             apply andb_prop in R; destruct R as [R R']
         end.

Lemma resolved_factor_range (st : SessionState) (inp : Inputs) (r : Resolved) :
  1 # 2 <= manual_weather_factor inp <= 3 # 2 ->
  resolve st inp = inr r ->
  1 # 2 <= computed_weather_factor r <= 3 # 2.
Proof.
  intros Hm. resolve_cases st inp; intros H; try discriminate H;
    injection H as <-; cbn [computed_weather_factor]; try exact Hm;
    match goal with
    | |- context [compute_weather_factor ?w] =>
        pose proof (weather_factor_range w); lra
    end.
Qed.

(** X20.  For widget values within the widgets' bounds, a run that resolves
    works with a weather factor between 0.5 and 1.5; every built-in row shows
    an elevation between the base elevation and 90 km above it, and a cost
    that is not negative; so does the custom row for its cost, and its
    elevation is not negative. *)
Theorem rows_within_widget_bounds (st : SessionState) (inp : Inputs)
    (r : Resolved) :
  inputs_in_range inp = true ->
  resolve st inp = inr r ->
  1 # 2 <= computed_weather_factor r <= 3 # 2
  /\ (forall i item, transport_params inp !! i = Some item ->
        let row := builtin_row r inp item in
        Py.round (final_base_elev r) 2 <= Final_Elevation_m row
        /\ Final_Elevation_m row <= Py.round (final_base_elev r + 90000) 2
        /\ 0 <= Estimated_Cost_USD row)
  /\ 0 <= Final_Elevation_m (custom_row r inp)
  /\ 0 <= Estimated_Cost_USD (custom_row r inp).
Proof.
  intros Hrange Hres.
  pose proof Hrange as Hall. unfold inputs_in_range in Hall.
  apply andb_prop in Hall. destruct Hall as [Hall _].
  apply andb_prop in Hall. destruct Hall as [Hall _].
  apply andb_prop in Hall. destruct Hall as [_ Hall].
  split_range Hrange.
  assert (Hf : 1 # 2 <= computed_weather_factor r <= 3 # 2)
    by (apply (resolved_factor_range st inp r); [lra | assumption]).
  split; [exact Hf|]. split; [|split].
  - intros i [mode params] Hi row. subst row.
    rewrite forallb_forall in Hall.
    assert (Hp : params_in_range params = true).
    { apply (Hall (mode, params)). apply list_elem_of_In.
      eapply list_elem_of_lookup_2. exact Hi. }
    split_range Hp.
    unfold builtin_row. cbn [Final_Elevation_m Estimated_Cost_USD].
    set (a := altitude_km inp) in *. set (e := efficiency params) in *.
    set (f := computed_weather_factor r) in *.
    assert (Hae : 0 <= a * 1000 * e)
      by (apply Qmult_le_0_compat; [apply Qmult_le_0_compat|]; lra).
    assert (Hae' : a * 1000 * e <= 60000) by nra.
    split; [|split].
    + apply round_mono. unfold simulate_elevation. fold a e f. nra.
    + apply round_mono. unfold simulate_elevation. fold a e f. nra.
    + apply round_nonneg. unfold estimate_cost.
      pose proof (Qmult_le_0_compat (cost_per_gram params) (duck_mass inp)).
      pose proof (Qmult_le_0_compat (cost_per_km params) a).
      lra.
  - unfold custom_row. cbn [Final_Elevation_m]. apply round_nonneg.
    apply max_zero_nonneg.
  - unfold custom_row. cbn [Estimated_Cost_USD]. apply round_nonneg.
    unfold estimate_custom_cost.
    set (cm := custom_lift_method inp) in *.
    pose proof (Qmult_le_0_compat (cm_cost_per_gram cm) (duck_mass inp)).
    pose proof (Qmult_le_0_compat (cm_cost_per_km cm) (altitude_km inp)).
    pose proof (Qmult_le_0_compat (cm_setup_time_hours cm) (cm_labor_rate cm)).
    apply Qmult_le_0_compat; lra.
Qed.

(** The defaults with the custom method included, on a session with a
    25 km/h reading. *)
Lemma rows_within_widget_bounds_witness :
  inputs_in_range custom_scenario = true
  /\ resolve windy_session custom_scenario = inr (mkResolved 10 25 0.8)
  /\ 1 # 2 <= computed_weather_factor (mkResolved 10 25 0.8) <= 3 # 2.
Proof.
  assert (Hin : inputs_in_range custom_scenario = true) by reflexivity.
  assert (Hres : resolve windy_session custom_scenario
                 = inr (mkResolved 10 25 0.8)) by reflexivity.
  split; [exact Hin|]. split; [exact Hres|].
  apply (rows_within_widget_bounds windy_session custom_scenario
           (mkResolved 10 25 0.8) Hin Hres).
Defined.

(** X21.  The elevations shown do not depend on the payload or on any cost
    parameter: two runs that resolve to the same base elevation, wind speed
    and weather factor, for the same target altitude, show the same elevation
    for methods of equal efficiency (and, for the custom method, equal wind
    sensitivity), however the duck's mass and the costs differ. *)
Theorem elevations_ignore_payload_and_costs (r : Resolved)
    (override_base_elev override_base_elev' : bool)
    (manual_base_elev manual_base_elev' : Q)
    (override_weather override_weather' : bool)
    (manual_weather_factor manual_weather_factor' : Q)
    (duck_mass duck_mass' altitude_km : Q)
    (transport_params transport_params' : Py.dict TransportParams)
    (cm cm' : CustomLiftMethod) (use_custom_method use_custom_method' : bool) :
  let inp :=
    mkInputs override_base_elev manual_base_elev override_weather
      manual_weather_factor duck_mass transport_params cm use_custom_method
      altitude_km in
  let inp' :=
    mkInputs override_base_elev' manual_base_elev' override_weather'
      manual_weather_factor' duck_mass' transport_params' cm'
      use_custom_method' altitude_km in
  (forall mode mode' params params',
      efficiency params = efficiency params' ->
      Final_Elevation_m (builtin_row r inp (mode, params))
      = Final_Elevation_m (builtin_row r inp' (mode', params')))
  /\ (cm_efficiency cm = cm_efficiency cm' ->
      cm_wind_sensitivity cm = cm_wind_sensitivity cm' ->
      Final_Elevation_m (custom_row r inp)
      = Final_Elevation_m (custom_row r inp')).
Proof.
  intros inp inp'. split.
  - intros mode mode' params params' He.
    unfold builtin_row. cbn [Final_Elevation_m]. rewrite He. reflexivity.
  - intros He Hs. unfold custom_row. cbn [Final_Elevation_m].
    subst inp inp'. cbn. rewrite He, Hs. reflexivity.
Qed.
